(** * Presence handlers of the emitter broker

    A shallow embedding of [Notify], [OnPresence] and [OnHTTPPresence]
    (package [presence]) together with the interfaces of package [service]
    they are written against.

    Go strings and byte slices are both sequences of bytes and are modelled
    by [string]; the conversions [[]byte(s)] and [nocopy.String(s)] are the
    identity.  Unsigned machine integers are carried as [Z]: the handlers
    never compute with them, they only pass them on.

    Calls made on the collaborators that hold state (the pub/sub bus, the
    presence aggregation, the request body) are recorded, in program order,
    in a log that the handlers return next to their result. *)

From Stdlib Require Import ZArith Lia Ascii.
From stdpp Require Import base list gmap strings pretty.

Local Open Scope Z_scope.

(** ** Strings *)

(** [strings.HasSuffix]:
    [len(s) >= len(suffix) && s[len(s)-len(suffix):] == suffix]. *)
Definition HasSuffix (s suffix : string) : bool :=
  (String.length suffix <=? String.length s)%nat
  && String.eqb
       (String.substring (String.length s - String.length suffix)
                         (String.length suffix) s)
       suffix.

(** The two handlers share the statement
    [if !strings.HasSuffix(msg.Channel, "/") { msg.Channel = msg.Channel + "/" }];
    this is the value of [msg.Channel] after it. *)
Definition ensure_trailing_slash (channel : string) : string :=
  if negb (HasSuffix channel "/") then channel +:+ "/" else channel.

(** ** Data model *)

(** Package [errors]: the three error responses the handlers return. *)
Module errors.
Inductive Error := ErrBadRequest | ErrUnauthorized | ErrUnauthorizedExt.
End errors.

(** Package [net/http]: status codes and the response writer.  A
    [ResponseWriter] keeps the status of the first [WriteHeader]; a [Write]
    that comes before any [WriteHeader] sends [StatusOK] first. *)
Module http.
Definition StatusOK : Z := 200.
Definition StatusBadRequest : Z := 400.
Definition StatusUnauthorized : Z := 401.
Definition StatusNotFound : Z := 404.
Definition StatusInternalServerError : Z := 500.

Record ResponseWriter := { status : option Z; body : string }.

Definition fresh : ResponseWriter := {| status := None; body := "" |}.

Definition WriteHeader (code : Z) (w : ResponseWriter) : ResponseWriter :=
  match status w with
  | Some _ => w
  | None => {| status := Some code; body := body w |}
  end.

Definition Write (b : string) (w : ResponseWriter) : ResponseWriter :=
  let w := WriteHeader StatusOK w in
  {| status := status w; body := body w +:+ b |}.

Record Request := { Method : string; Body : string }.
End http.

(** [security.Channel]: the key and the channel text the parser split the
    input into, the segment identifiers and the type tag. *)
Module Channel.
Inductive Type_ := ChannelInvalid | ChannelStatic | ChannelWildcard.

#[global] Instance Type_eq_dec : EqDecision Type_.
Proof. solve_decision. Defined.

Record t :=
  { Key : string; Channel : string; Query : list Z; ChannelType : Type_ }.
End Channel.

(** [service.Conn], as far as the handlers call it. *)
Module Conn.
Record t := { LocalID : Z; Username : string }.
End Conn.

(** [presence.Request]: the fields the handlers read.  [Changes] is a
    [*bool]; [None] is the nil pointer. *)
Module Request.
Record t :=
  { Key : string; Channel : string; Status : bool; Changes : option bool }.

(** The zero value [Request{}]. *)
Definition zero : t :=
  {| Key := ""; Channel := ""; Status := false; Changes := None |}.
End Request.

(** Modelled from the spec: the declaration of [presence.Info] is not among
    the files at hand.  One entry per discovered subscriber: connection
    identifier, username, node-origin tag. *)
Module Info.
Record t := { ID : string; Username : string; Origin : string }.
End Info.

(** [presence.Response], with the fields the handlers fill in. *)
Module Response.
Record t :=
  { Time : Z; Event : string; Channel : string; Who : list Info.t }.
End Response.

(** Modelled from the spec: the constant is declared in a file of the
    package that is not at hand; the event kind of a response is the string
    [status]. *)
Definition EventTypeStatus : string := "status".

(** The fields a JSON document sets when it is decoded into a [Request].
    [None] is a member that is absent, which leaves the field as it was.
    For [changes], [Some None] is an explicit [null], which resets the
    pointer. *)
Module Fields.
Record t :=
  { key : option string;
    channel : option string;
    status : option bool;
    changes : option (option bool) }.

Definition store (f : t) (msg : Request.t) : Request.t :=
  {| Request.Key := default (Request.Key msg) (key f);
     Request.Channel := default (Request.Channel msg) (channel f);
     Request.Status := default (Request.Status msg) (status f);
     Request.Changes := default (Request.Changes msg) (changes f) |}.
End Fields.

(** ** Collaborators *)

(** Package [security] (keys, permissions, channel parser) and the contract
    type returned by the authorizer. *)
Class Security := {
  Key : Type;
  Contract : Type;
  HasPermission : Key → Z → bool;
  KeyContract : Key → Z;
  ParseChannel : string → Channel.t;
  AllowPresence : Z;
  AllowExtend : Z
}.

(** Package [message]: subscription-set identifiers and subscribers. *)
Class Messaging := {
  Ssid : Type;
  Subscriber : Type;
  NewSsid : Z → list Z → Ssid;
  NewSsidForPresence : Ssid → Ssid
}.

(** Package [encoding/json], at the types the handlers use it.  [Unmarshal]
    and [Decoder.Decode] fail or say which fields the document sets;
    [Marshal] fails or gives the encoding. *)
Class Json := {
  Unmarshal : string → option Fields.t;
  Decode : string → option Fields.t;
  Marshal : Response.t → option string
}.

Section Events.
Context `{Messaging}.

(** [event.Subscription], with the fields [OnPresence] fills in. *)
Record Subscription := {
  Subscription_Conn : Z;
  Subscription_User : string;
  Subscription_Ssid : Ssid;
  Subscription_Channel : string
}.

(** A message is kept as the arguments [message.New] was called with. *)
Record Message := message_New {
  Message_Ssid : Ssid;
  Message_Channel : string;
  Message_Payload : string
}.

(** Modelled from the spec: the declaration of [presence.Notification] is
    not among the files at hand.  Event kind, SSID, channel, connection
    identifier, username. *)
Record Notification := {
  Notification_Event : string;
  Notification_Ssid : Ssid;
  Notification_Channel : string;
  Notification_ID : string;
  Notification_Username : string
}.

(** Calls on the collaborators that hold state: the three methods of
    [service.PubSub], the [io.Closer] of the connection, the presence
    aggregation and the body of an HTTP request. *)
Inductive Call :=
| Publish (m : Message) (filter : Subscriber → bool)
| Subscribe (c : Conn.t) (ev : Subscription)
| Unsubscribe (c : Conn.t) (ev : Subscription)
| Close (c : Conn.t)
| GetAllPresence (ssid : Ssid)
| BodyClose.

(** Results paired with the log of calls. *)
Definition Logged (A : Type) : Type := A * list Call.

#[global] Instance Logged_ret : MRet Logged := λ A x, (x, []).
#[global] Instance Logged_bind : MBind Logged :=
  λ A B f m, let '(y, l) := f m.1 in (y, m.2 ++ l).

Definition call (c : Call) : Logged () := ((), [c]).

(** What a handler returns as [service.Response]: nil, an error or a
    presence response. *)
Inductive ServiceResponse :=
| RespNil
| RespError (e : errors.Error)
| RespPresence (r : Response.t).

End Events.

(** [Notification.Encode], a method declared with the type: the encoding,
    or [None] when it reports [ok = false]. *)
Class Codec `{Messaging} := {
  Encode : Notification → option string
}.

Section Presence.
Context `{Security} `{Messaging} `{Json} `{!Codec}.

(** [service.Authorizer]. *)
Record Authorizer := {
  Authorize : Channel.t → Z → Contract * Key * bool
}.

(** The [Service] receiver.  [local_presence] and [survey] stand for what
    the local presence store and the peers that answer in time hold for an
    SSID. *)
Record Service := {
  auth : Authorizer;
  local_presence : Ssid → list Info.t;
  survey : Ssid → list (list Info.t)
}.

(** *** Status aggregation *)

(** Modelled from the spec: [getAllPresence] is declared in a file of the
    package that is not at hand.  The partial answers are merged, in
    order, into one sequence that keeps the first entry seen for each
    connection identifier. *)
Fixpoint merge (seen : gset string) (l : list Info.t) : list Info.t :=
  match l with
  | [] => []
  | x :: l =>
      if decide (Info.ID x ∈ seen) then merge seen l
      else x :: merge ({[Info.ID x]} ∪ seen) l
  end.

Definition aggregate (partials : list (list Info.t)) : list Info.t :=
  merge ∅ (concat partials).

(** Modelled from the spec: the local answer comes first, then the answers
    of the peers that arrived within the window, in arrival order. *)
Definition getAllPresence (s : Service) (ssid : Ssid) : Logged (list Info.t) :=
  call (GetAllPresence ssid);;
  mret (aggregate (local_presence s ssid :: survey s ssid)).

(** *** Notify *)

Definition Notify (s : Service) (ev : Notification)
    (filter : Subscriber → bool) : Logged () :=
  let channel := "emitter/presence/" in
  match Encode ev with
  | Some encoded =>
      call (Publish (message_New (Notification_Ssid ev) channel encoded) filter)
  | None => mret ()
  end.

(** *** OnPresence *)

(** [now] is the value of [time.Now().UTC().Unix()]. *)
Definition OnPresence (s : Service) (now : Z) (c : Conn.t) (payload : string)
    : Logged (ServiceResponse * bool) :=
  let msg := {| Request.Key := ""; Request.Channel := "";
                Request.Status := true; Request.Changes := None |} in
  match Unmarshal payload with
  | None => mret (RespError errors.ErrBadRequest, false)
  | Some f =>
    let msg := Fields.store f msg in
    let msg_Channel := ensure_trailing_slash (Request.Channel msg) in
    let channel := ParseChannel (Request.Key msg +:+ "/" +:+ msg_Channel) in
    if decide (Channel.ChannelType channel = Channel.ChannelInvalid) then
      mret (RespError errors.ErrBadRequest, false)
    else
    let '(_, key, allowed) := Authorize (auth s) channel AllowPresence in
    if negb allowed then mret (RespError errors.ErrUnauthorized, false) else
    if HasPermission key AllowExtend then
      mret (RespError errors.ErrUnauthorizedExt, false)
    else
    let ssid := NewSsid (KeyContract key) (Channel.Query channel) in
    match Request.Changes msg with
    | Some changes =>
        let ev := {| Subscription_Conn := Conn.LocalID c;
                     Subscription_User := Conn.Username c;
                     Subscription_Ssid := NewSsidForPresence ssid;
                     Subscription_Channel := Channel.Channel channel |} in
        if changes then call (Subscribe c ev) else call (Unsubscribe c ev)
    | None => mret ()
    end;;
    let who := [] in
    if Request.Status msg then
      presence ← getAllPresence s ssid;
      let who := who ++ presence in
      mret (RespPresence {| Response.Time := now;
                            Response.Event := EventTypeStatus;
                            Response.Channel := msg_Channel;
                            Response.Who := who |}, true)
    else mret (RespNil, true)
  end.

(** *** OnHTTPPresence *)

Definition OnHTTPPresence (s : Service) (now : Z)
    (w : http.ResponseWriter) (r : http.Request) : Logged http.ResponseWriter :=
  if negb (String.eqb (http.Method r) "POST") then
    mret (http.WriteHeader http.StatusNotFound w)
  else
  let msg := Request.zero in
  match Decode (http.Body r) with
  | None => mret (http.WriteHeader http.StatusBadRequest w)
  | Some f =>
    let msg := Fields.store f msg in
    w ← (let msg_Channel := ensure_trailing_slash (Request.Channel msg) in
         let channel := ParseChannel ("emitter/" +:+ msg_Channel) in
         if decide (Channel.ChannelType channel = Channel.ChannelInvalid) then
           mret (http.WriteHeader http.StatusBadRequest w)
         else
         let '(_, key, allowed) := Authorize (auth s) channel AllowPresence in
         if negb allowed then
           mret (http.WriteHeader http.StatusUnauthorized w)
         else
         let ssid := NewSsid (KeyContract key) (Channel.Query channel) in
         who ← getAllPresence s ssid;
         match Marshal {| Response.Time := now;
                          Response.Event := EventTypeStatus;
                          Response.Channel := msg_Channel;
                          Response.Who := who |} with
         | None => mret (http.WriteHeader http.StatusInternalServerError w)
         | Some resp => mret (http.Write resp w)
         end);
    (* defer r.Body.Close() runs when the handler returns *)
    call BodyClose;;
    mret w
  end.

(** *** Vocabulary of the statements *)

(** The request [OnPresence] works with after decoding a payload that sets
    the fields [f]: the defaults, the fields stored over them, the channel
    text slash-terminated. *)
Definition presence_request (f : Fields.t) : Request.t :=
  let msg := Fields.store f {| Request.Key := ""; Request.Channel := "";
                               Request.Status := true;
                               Request.Changes := None |} in
  {| Request.Key := Request.Key msg;
     Request.Channel := ensure_trailing_slash (Request.Channel msg);
     Request.Status := Request.Status msg;
     Request.Changes := Request.Changes msg |}.

(** The same for [OnHTTPPresence], which starts from the zero value. *)
Definition http_request (f : Fields.t) : Request.t :=
  let msg := Fields.store f Request.zero in
  {| Request.Key := Request.Key msg;
     Request.Channel := ensure_trailing_slash (Request.Channel msg);
     Request.Status := Request.Status msg;
     Request.Changes := Request.Changes msg |}.

(** The channels the two handlers hand to the authorizer. *)
Definition presence_channel (msg : Request.t) : Channel.t :=
  ParseChannel (Request.Key msg +:+ "/" +:+ Request.Channel msg).

Definition http_channel (msg : Request.t) : Channel.t :=
  ParseChannel ("emitter/" +:+ Request.Channel msg).

(** An authorized request on the in-protocol path: the payload decodes and
    sets the fields [f], the channel of the request is valid, and the
    authorizer allows presence on it with a [key] that does not carry the
    extend permission. *)
Definition Authorized (s : Service) (payload : string)
    (f : Fields.t) (key : Key) : Prop :=
  ∃ ct,
    Unmarshal payload = Some f ∧
    Channel.ChannelType (presence_channel (presence_request f))
      ≠ Channel.ChannelInvalid ∧
    Authorize (auth s) (presence_channel (presence_request f)) AllowPresence
      = (ct, key, true) ∧
    HasPermission key AllowExtend = false.

(** The subscription event of a connection for a channel under a key. *)
Definition subscription_event (c : Conn.t) (channel : Channel.t) (key : Key)
    : Subscription :=
  {| Subscription_Conn := Conn.LocalID c;
     Subscription_User := Conn.Username c;
     Subscription_Ssid :=
       NewSsidForPresence (NewSsid (KeyContract key) (Channel.Query channel));
     Subscription_Channel := Channel.Channel channel |}.

(** The registration an authorized request asks for. *)
Definition registration (c : Conn.t) (msg : Request.t) (key : Key)
    : list Call :=
  match Request.Changes msg with
  | None => []
  | Some true =>
      [Subscribe c (subscription_event c (presence_channel msg) key)]
  | Some false =>
      [Unsubscribe c (subscription_event c (presence_channel msg) key)]
  end.

(** Calls that change the subscriptions of the bus, calls that close the
    connection, error responses. *)
Definition is_registration (c : Call) : bool :=
  match c with Subscribe _ _ | Unsubscribe _ _ => true | _ => false end.

Definition is_close (c : Call) : bool :=
  match c with Close _ => true | _ => false end.

Definition is_error (r : ServiceResponse) : bool :=
  match r with RespError _ => true | _ => false end.

End Presence.

(** ** A concrete broker

    Instances of the collaborators on which the handlers can be run: keys
    with a permission mask, a channel parser for [key/seg/seg/], SSIDs as
    lists of words, a reader and a writer for the JSON documents of the
    wire format, and services over a key table. *)
Module Sample.

(** *** Keys and channels *)

Record SampleKey := { permissions : Z; contract : Z }.

Definition has_permission (k : SampleKey) (flag : Z) : bool :=
  Z.land (permissions k) flag =? flag.

Definition allow_presence : Z := Z.shiftl 1 5.
Definition allow_extend : Z := Z.shiftl 1 6.

(** The segments of a slash-terminated path; [None] when the path does not
    end in a slash or has an empty segment. *)
Fixpoint segments (cur : string) (s : string) : option (list string) :=
  match s with
  | EmptyString => if String.eqb cur "" then Some [] else None
  | String c s' =>
      if Ascii.eqb c "/"%char then
        if String.eqb cur "" then None
        else cons cur <$> segments "" s'
      else segments (cur +:+ String c "") s'
  end.

Fixpoint hash (h : Z) (s : string) : Z :=
  match s with
  | EmptyString => h
  | String c s' => hash ((h * 31 + Z.of_N (Ascii.N_of_ascii c)) mod 2 ^ 32) s'
  end.

Definition invalid_channel : Channel.t :=
  {| Channel.Key := ""; Channel.Channel := ""; Channel.Query := [];
     Channel.ChannelType := Channel.ChannelInvalid |}.

Definition join (segs : list string) : string :=
  foldr (λ seg acc, seg +:+ "/" +:+ acc) "" segs.

Definition parse_channel (text : string) : Channel.t :=
  match segments "" text with
  | Some (key :: seg :: segs) =>
      {| Channel.Key := key;
         Channel.Channel := join (seg :: segs);
         Channel.Query := hash 0 <$> (seg :: segs);
         Channel.ChannelType :=
           if bool_decide ("+" ∈ seg :: segs) then Channel.ChannelWildcard
           else Channel.ChannelStatic |}
  | _ => invalid_channel
  end.

#[export] Instance security : Security := {|
  Key := SampleKey;
  Contract := Z;
  HasPermission := has_permission;
  KeyContract := contract;
  ParseChannel := parse_channel;
  AllowPresence := allow_presence;
  AllowExtend := allow_extend
|}.

(** *** SSIDs *)

#[export] Instance messaging : Messaging := {|
  Ssid := list Z;
  Subscriber := Conn.t;
  NewSsid := λ contract query, contract :: query;
  NewSsidForPresence := λ ssid, 0 :: 1 :: ssid
|}.

(** *** JSON *)

Definition quote : string := String "034"%char "".

Definition json_string (s : string) : string := quote +:+ s +:+ quote.

Definition json_member (name value : string) : string :=
  json_string name +:+ ":" +:+ value.

Definition json_object (members : list string) : string :=
  "{" +:+ String.concat "," members +:+ "}".

Definition json_array (items : list string) : string :=
  "[" +:+ String.concat "," items +:+ "]".

Inductive token :=
| TLBrace | TRBrace | TColon | TComma
| TString (s : string) | TBool (b : bool) | TNull.

(** The tokens of a document; [lit] is the string literal being read. *)
Fixpoint lex (lit : option string) (s : string) : option (list token) :=
  match lit, s with
  | Some _, EmptyString => None
  | Some l, String c s' =>
      if Ascii.eqb c "034" then cons (TString l) <$> lex None s'
      else lex (Some (l +:+ String c "")) s'
  | None, EmptyString => Some []
  | None, String "{" s' => cons TLBrace <$> lex None s'
  | None, String "}" s' => cons TRBrace <$> lex None s'
  | None, String ":" s' => cons TColon <$> lex None s'
  | None, String "," s' => cons TComma <$> lex None s'
  | None, String " " s' => lex None s'
  | None, String "034" s' => lex (Some "") s'
  | None, String "t" (String "r" (String "u" (String "e" s'))) =>
      cons (TBool true) <$> lex None s'
  | None, String "f" (String "a" (String "l" (String "s" (String "e" s')))) =>
      cons (TBool false) <$> lex None s'
  | None, String "n" (String "u" (String "l" (String "l" s'))) =>
      cons TNull <$> lex None s'
  | None, String _ _ => None
  end.

Definition no_fields : Fields.t :=
  {| Fields.key := None; Fields.channel := None;
     Fields.status := None; Fields.changes := None |}.

(** One member of the request object.  A [null] leaves a string or a
    boolean as it was and resets the pointer [changes]; a value of the
    wrong type fails the decoding; unknown members are skipped. *)
Definition set_field (name : string) (v : token) (f : Fields.t)
    : option Fields.t :=
  let '(Fields.Build_t k ch st cg) := f in
  if String.eqb name "key" then
    match v with
    | TString s => Some (Fields.Build_t (Some s) ch st cg)
    | TNull => Some f
    | _ => None
    end
  else if String.eqb name "channel" then
    match v with
    | TString s => Some (Fields.Build_t k (Some s) st cg)
    | TNull => Some f
    | _ => None
    end
  else if String.eqb name "status" then
    match v with
    | TBool b => Some (Fields.Build_t k ch (Some b) cg)
    | TNull => Some f
    | _ => None
    end
  else if String.eqb name "changes" then
    match v with
    | TBool b => Some (Fields.Build_t k ch st (Some (Some b)))
    | TNull => Some (Fields.Build_t k ch st (Some None))
    | _ => None
    end
  else
    match v with
    | TString _ | TBool _ | TNull => Some f
    | _ => None
    end.

Fixpoint members (ts : list token) (f : Fields.t) : option Fields.t :=
  match ts with
  | TString name :: TColon :: v :: rest =>
      match set_field name v f with
      | None => None
      | Some f' =>
          match rest with
          | [TRBrace] => Some f'
          | TComma :: rest' => members rest' f'
          | _ => None
          end
      end
  | _ => None
  end.

Definition decode (doc : string) : option Fields.t :=
  match lex None doc with
  | Some [TLBrace; TRBrace] => Some no_fields
  | Some (TLBrace :: ts) => members ts no_fields
  | _ => None
  end.

Definition encode_info (i : Info.t) : string :=
  json_object [json_member "id" (json_string (Info.ID i));
               json_member "username" (json_string (Info.Username i))].

Definition encode_response (r : Response.t) : string :=
  json_object [json_member "time" (pretty (Response.Time r));
               json_member "event" (json_string (Response.Event r));
               json_member "channel" (json_string (Response.Channel r));
               json_member "who" (json_array (encode_info <$> Response.Who r))].

#[export] Instance json : Json := {|
  Unmarshal := decode;
  Decode := decode;
  Marshal := λ r, Some (encode_response r)
|}.

(** A writer that cannot encode any response. *)
Definition failing_json : Json := {|
  Unmarshal := decode;
  Decode := decode;
  Marshal := λ _, None
|}.

(** Notifications are encoded unless their event kind is empty. *)
#[export] Instance codec : Codec := {|
  Encode := λ ev,
    if String.eqb (Notification_Event ev) "" then None
    else Some (json_object
                 [json_member "event" (json_string (Notification_Event ev));
                  json_member "channel" (json_string (Notification_Channel ev));
                  json_member "id" (json_string (Notification_ID ev))])
|}.

(** *** Services *)

(** The authorizer looks the key of the channel up in a table and allows
    the request when the key carries the permission asked for. *)
Definition authorize (keys : list (string * SampleKey))
    (channel : Channel.t) (permission : Z) : Z * SampleKey * bool :=
  match list_find (λ e, e.1 = Channel.Key channel) keys with
  | Some (_, (_, k)) => (contract k, k, has_permission k permission)
  | None => (0, {| permissions := 0; contract := 0 |}, false)
  end.

Definition service (keys : list (string * SampleKey))
    (local : list Info.t) (peers : list (list Info.t)) : Service :=
  {| auth := {| Authorize := authorize keys |};
     local_presence := λ _, local;
     survey := λ _, peers |}.

Definition alice : Info.t :=
  {| Info.ID := "A"; Info.Username := "alice"; Info.Origin := "n1" |}.
Definition bob : Info.t :=
  {| Info.ID := "B"; Info.Username := "bob"; Info.Origin := "n1" |}.
Definition bob' : Info.t :=
  {| Info.ID := "B"; Info.Username := "bob"; Info.Origin := "n2" |}.
Definition carol : Info.t :=
  {| Info.ID := "C"; Info.Username := "carol"; Info.Origin := "n2" |}.

Definition extend_only : SampleKey :=
  {| permissions := allow_extend; contract := 7 |}.
Definition presence_only : SampleKey :=
  {| permissions := allow_presence; contract := 7 |}.
Definition presence_and_extend : SampleKey :=
  {| permissions := Z.lor allow_presence allow_extend; contract := 7 |}.
Definition emitter_key : SampleKey :=
  {| permissions := Z.lor allow_presence allow_extend; contract := 1 |}.

(** [K1] may query presence, [KX] may only extend, [KPX] may do both; the
    HTTP endpoint authorizes under the key text [emitter]. *)
Definition keys : list (string * SampleKey) :=
  [("K1", presence_only); ("KX", extend_only);
   ("KPX", presence_and_extend); ("emitter", emitter_key)].

Definition broker : Service := service keys [alice; bob] [[bob'; carol]].

Definition conn : Conn.t := {| Conn.LocalID := 42; Conn.Username := "dave" |}.

(** The payload [{"key":k,"channel":ch}] followed by further members. *)
Definition payload (k ch : string) (more : list string) : string :=
  json_object (json_member "key" (json_string k)
               :: json_member "channel" (json_string ch) :: more).

Definition post (body : string) : http.Request :=
  {| http.Method := "POST"; http.Body := body |}.

(** The body [{"channel":ch}] followed by further members. *)
Definition body (ch : string) (more : list string) : string :=
  json_object (json_member "channel" (json_string ch) :: more).

Definition fields (k ch : option string) (st : option bool)
    (cg : option (option bool)) : Fields.t :=
  {| Fields.key := k; Fields.channel := ch;
     Fields.status := st; Fields.changes := cg |}.

End Sample.

(** * Properties *)

(** Unfolds a handler down to its result and log. *)
Ltac run :=
  unfold OnPresence, OnHTTPPresence, getAllPresence, Notify, call,
    presence_channel, http_channel, presence_request, http_request,
    mbind, mret, Logged_bind, Logged_ret in *;
  simpl in *.

(** ** Trailing slash *)

Lemma HasSuffix_slash_cons (c : ascii) (s : string) :
  HasSuffix (String c s) "/" =
  match s with
  | EmptyString => Ascii.eqb c "/"%char
  | String _ _ => HasSuffix s "/"
  end.
Proof.
  destruct s as [|c' s'].
  - unfold HasSuffix. simpl. by destruct (Ascii.eqb c "/").
  - unfold HasSuffix. simpl. by rewrite Nat.sub_0_r.
Qed.

Lemma HasSuffix_slash_app (s : string) : HasSuffix (s +:+ "/") "/" = true.
Proof.
  induction s as [|c s IH].
  - reflexivity.
  - change (String c s +:+ "/") with (String c (s +:+ "/")).
    rewrite HasSuffix_slash_cons.
    destruct (s +:+ "/") eqn:E; [by destruct s | done].
Qed.

Lemma HasSuffix_slash_inv (s : string) :
  HasSuffix s "/" = true → ∃ p, s = p +:+ "/".
Proof.
  induction s as [|c s IH]; [done|].
  rewrite HasSuffix_slash_cons. destruct s as [|c' s'].
  - intros ->%Ascii.eqb_eq. by exists "".
  - intros [p ->]%IH. by exists (String c p).
Qed.

Lemma HasSuffix_slash_iff (s : string) :
  HasSuffix s "/" = true ↔ ∃ p, s = p +:+ "/".
Proof.
  split; [apply HasSuffix_slash_inv|].
  intros [p ->]. apply HasSuffix_slash_app.
Qed.

Lemma ensure_trailing_slash_suffix (s : string) :
  HasSuffix (ensure_trailing_slash s) "/" = true.
Proof.
  unfold ensure_trailing_slash.
  destruct (HasSuffix s "/") eqn:E; simpl; [done|apply HasSuffix_slash_app].
Qed.

Lemma length_app_slash (s : string) :
  String.length (s +:+ "/") = S (String.length s).
Proof. induction s as [|c s IH]; simpl; [done|by rewrite IH]. Qed.

(** ** The in-protocol handler, branch by branch *)

Section Handlers.
Context `{Security} `{Messaging} `{Json} `{!Codec}.
Implicit Types (s : Service) (c : Conn.t) (f : Fields.t) (key : Key).

Lemma OnPresence_malformed s now c payload :
  Unmarshal payload = None →
  OnPresence s now c payload = (RespError errors.ErrBadRequest, false, []).
Proof. intros E. run. by rewrite E. Qed.

Lemma OnPresence_invalid s now c payload f :
  Unmarshal payload = Some f →
  Channel.ChannelType (presence_channel (presence_request f))
    = Channel.ChannelInvalid →
  OnPresence s now c payload = (RespError errors.ErrBadRequest, false, []).
Proof. intros E Hty. run. rewrite E. by rewrite decide_True. Qed.

Lemma OnPresence_denied s now c payload f ct key :
  Unmarshal payload = Some f →
  Channel.ChannelType (presence_channel (presence_request f))
    ≠ Channel.ChannelInvalid →
  Authorize (auth s) (presence_channel (presence_request f)) AllowPresence
    = (ct, key, false) →
  OnPresence s now c payload = (RespError errors.ErrUnauthorized, false, []).
Proof.
  intros E Hty Ha. run. rewrite E. rewrite decide_False by done.
  by rewrite Ha.
Qed.

Lemma OnPresence_extend s now c payload f ct key :
  Unmarshal payload = Some f →
  Channel.ChannelType (presence_channel (presence_request f))
    ≠ Channel.ChannelInvalid →
  Authorize (auth s) (presence_channel (presence_request f)) AllowPresence
    = (ct, key, true) →
  HasPermission key AllowExtend = true →
  OnPresence s now c payload
    = (RespError errors.ErrUnauthorizedExt, false, []).
Proof.
  intros E Hty Ha Hx. run. rewrite E. rewrite decide_False by done.
  rewrite Ha. simpl. by rewrite Hx.
Qed.

Lemma OnPresence_authorized s now c payload f key :
  Authorized s payload f key →
  let msg := presence_request f in
  let ssid := NewSsid (KeyContract key)
                      (Channel.Query (presence_channel msg)) in
  OnPresence s now c payload =
    (if Request.Status msg then
       (RespPresence
          {| Response.Time := now;
             Response.Event := EventTypeStatus;
             Response.Channel := Request.Channel msg;
             Response.Who :=
               aggregate (local_presence s ssid :: survey s ssid) |},
        true,
        registration c msg key ++ [GetAllPresence ssid])
     else (RespNil, true, registration c msg key)).
Proof.
  intros (ct & E & Hty & Ha & Hx). unfold registration, subscription_event.
  run. rewrite E. rewrite decide_False by done.
  rewrite Ha. simpl. rewrite Hx.
  destruct (default None (Fields.changes f)) as [[|]|],
    (default true (Fields.status f)); simpl; done.
Qed.

(** ** The HTTP handler, branch by branch *)

Lemma OnHTTPPresence_method s now w r :
  http.Method r ≠ "POST" →
  OnHTTPPresence s now w r = (http.WriteHeader http.StatusNotFound w, []).
Proof.
  intros Hm%String.eqb_neq. run. by rewrite Hm.
Qed.

Lemma OnHTTPPresence_malformed s now w r :
  http.Method r = "POST" →
  Decode (http.Body r) = None →
  OnHTTPPresence s now w r = (http.WriteHeader http.StatusBadRequest w, []).
Proof.
  intros Hm%String.eqb_eq E. run. by rewrite Hm, E.
Qed.

Lemma OnHTTPPresence_invalid s now w r f :
  http.Method r = "POST" →
  Decode (http.Body r) = Some f →
  Channel.ChannelType (http_channel (http_request f))
    = Channel.ChannelInvalid →
  OnHTTPPresence s now w r
    = (http.WriteHeader http.StatusBadRequest w, [BodyClose]).
Proof.
  intros Hm%String.eqb_eq E Hty. run. rewrite Hm, E. simpl.
  by rewrite decide_True.
Qed.

Lemma OnHTTPPresence_denied s now w r f ct key :
  http.Method r = "POST" →
  Decode (http.Body r) = Some f →
  Channel.ChannelType (http_channel (http_request f))
    ≠ Channel.ChannelInvalid →
  Authorize (auth s) (http_channel (http_request f)) AllowPresence
    = (ct, key, false) →
  OnHTTPPresence s now w r
    = (http.WriteHeader http.StatusUnauthorized w, [BodyClose]).
Proof.
  intros Hm%String.eqb_eq E Hty Ha. run. rewrite Hm, E. simpl.
  rewrite decide_False by done. by rewrite Ha.
Qed.

Lemma OnHTTPPresence_allowed s now w r f ct key :
  http.Method r = "POST" →
  Decode (http.Body r) = Some f →
  Channel.ChannelType (http_channel (http_request f))
    ≠ Channel.ChannelInvalid →
  Authorize (auth s) (http_channel (http_request f)) AllowPresence
    = (ct, key, true) →
  let ssid := NewSsid (KeyContract key)
                      (Channel.Query (http_channel (http_request f))) in
  OnHTTPPresence s now w r =
    (match Marshal {| Response.Time := now;
                      Response.Event := EventTypeStatus;
                      Response.Channel := Request.Channel (http_request f);
                      Response.Who :=
                        aggregate (local_presence s ssid :: survey s ssid) |}
     with
     | None => http.WriteHeader http.StatusInternalServerError w
     | Some resp => http.Write resp w
     end,
     [GetAllPresence ssid; BodyClose]).
Proof.
  intros Hm%String.eqb_eq E Hty Ha. run. rewrite Hm, E. simpl.
  rewrite decide_False by done. rewrite Ha. simpl.
  by destruct (Marshal _).
Qed.

(** ** The claims about [OnPresence] *)

(** C1 (amended).  On the in-protocol path, a request whose payload decodes,
    whose channel is valid and which the authorizer allows is rejected with
    [ErrUnauthorizedExt] as soon as the key carries the extend permission,
    whatever other permissions it carries; the handler returns [false] and
    has made no call: no subscription change, no aggregation.  The checks
    that come first are reported first, whatever the key carries: a payload
    that does not decode and a channel that is invalid give
    [ErrBadRequest], a request the authorizer does not allow gives
    [ErrUnauthorized], also when the key it returns carries the extend
    permission.  The outcomes hold for every SSID derivation, which they
    do not mention. *)
Theorem extend_key_rejected s now c payload :
  (Unmarshal payload = None →
     OnPresence s now c payload = (RespError errors.ErrBadRequest, false, []))
  ∧ (∀ f, Unmarshal payload = Some f →
     (Channel.ChannelType (presence_channel (presence_request f))
        = Channel.ChannelInvalid →
      OnPresence s now c payload
        = (RespError errors.ErrBadRequest, false, []))
     ∧ (Channel.ChannelType (presence_channel (presence_request f))
          ≠ Channel.ChannelInvalid →
        ∀ ct key,
          (Authorize (auth s) (presence_channel (presence_request f))
             AllowPresence = (ct, key, false) →
           OnPresence s now c payload
             = (RespError errors.ErrUnauthorized, false, []))
          ∧ (Authorize (auth s) (presence_channel (presence_request f))
               AllowPresence = (ct, key, true) →
             HasPermission key AllowExtend = true →
             OnPresence s now c payload
               = (RespError errors.ErrUnauthorizedExt, false, [])))).
Proof.
  split.
  { intros E. run. by rewrite E. }
  intros f E. split.
  { intros Hty. run. rewrite E. by rewrite decide_True. }
  intros Hty ct key. split.
  - intros Ha. run. rewrite E. rewrite decide_False by done.
    by rewrite Ha.
  - intros Ha Hx. run. rewrite E. rewrite decide_False by done.
    rewrite Ha. simpl. by rewrite Hx.
Qed.

(** Every run of [OnPresence] ends in one of these shapes. *)
Lemma OnPresence_cases s now c payload :
  let out := OnPresence s now c payload in
  (∃ e, out = (RespError e, false, []))
  ∨ (∃ f key, Authorized s payload f key).
Proof.
  destruct (Unmarshal payload) as [f|] eqn:E.
  2: { left. eexists. by apply OnPresence_malformed. }
  destruct (decide (Channel.ChannelType (presence_channel (presence_request f))
                    = Channel.ChannelInvalid)) as [Hty|Hty].
  { left. eexists. by eapply OnPresence_invalid. }
  destruct (Authorize (auth s) (presence_channel (presence_request f))
              AllowPresence)
    as [[ct key] [|]] eqn:Ha.
  2: { left. eexists. by eapply OnPresence_denied. }
  destruct (HasPermission key AllowExtend) eqn:Hx.
  { left. eexists. by eapply OnPresence_extend. }
  right. exists f, key, ct. done.
Qed.

Lemma registration_not_close c msg key :
  List.filter is_close (registration c msg key) = [].
Proof. unfold registration. by destruct (Request.Changes msg) as [[|]|]. Qed.

(** C3 (amended).  For every payload the boolean [OnPresence] returns is
    [true] exactly when the response is not an error: [false] comes with
    every error response, [true] with a status response or with none.  The
    handler never calls [Close] on the connection. *)
Theorem OnPresence_ok_and_never_closes s now c payload :
  (OnPresence s now c payload).1.2
    = negb (is_error (OnPresence s now c payload).1.1)
  ∧ List.filter is_close (OnPresence s now c payload).2 = [].
Proof.
  destruct (OnPresence_cases s now c payload) as [[e ->]|(f & key & Hok)].
  - done.
  - rewrite (OnPresence_authorized s now c payload f key Hok).
    destruct (Request.Status (presence_request f)); simpl.
    + split; [done|]. rewrite List.filter_app, registration_not_close. done.
    + split; [done|]. apply registration_not_close.
Qed.

(** C5.  For an authorized request, the subscribe and unsubscribe calls on
    the bus are: none when the want-changes flag is unset; one [Subscribe]
    of the connection when it is true; one [Unsubscribe] of the connection
    when it is false.  Both carry the event made of the connection
    identifier, the username and the presence SSID of the channel. *)
Theorem changes_registration s now c payload f key :
  Authorized s payload f key →
  let msg := presence_request f in
  let channel := presence_channel msg in
  let ev :=
    {| Subscription_Conn := Conn.LocalID c;
       Subscription_User := Conn.Username c;
       Subscription_Ssid :=
         NewSsidForPresence
           (NewSsid (KeyContract key) (Channel.Query channel));
       Subscription_Channel := Channel.Channel channel |} in
  Request.Changes msg = default None (Fields.changes f)
  ∧ List.filter is_registration (OnPresence s now c payload).2 =
      match Request.Changes msg with
      | None => []
      | Some true => [Subscribe c ev]
      | Some false => [Unsubscribe c ev]
      end.
Proof.
  intros Hok. split; [done|].
  rewrite (OnPresence_authorized s now c payload f key Hok).
  unfold registration, subscription_event.
  destruct (Request.Status (presence_request f)),
    (Request.Changes (presence_request f)) as [[|]|]; done.
Qed.

(** C6.  For an authorized request: the status flag is the one the payload
    sets, and [true] when the payload does not set it.  When it is [true]
    the handler returns, with [true], a response of event kind [status]
    with the slash-terminated channel text, the time [now] and the
    aggregated subscriber list of the SSID; when it is [false] the handler
    returns no response object, with [true]. *)
Theorem status_response s now c payload f key :
  Authorized s payload f key →
  let msg := presence_request f in
  let ssid := NewSsid (KeyContract key)
                      (Channel.Query (presence_channel msg)) in
  Request.Status msg = default true (Fields.status f)
  ∧ Request.Channel msg
      = ensure_trailing_slash (default "" (Fields.channel f))
  ∧ (Request.Status msg = true →
     (OnPresence s now c payload).1 =
       (RespPresence
          {| Response.Time := now;
             Response.Event := "status";
             Response.Channel := Request.Channel msg;
             Response.Who :=
               aggregate (local_presence s ssid :: survey s ssid) |},
        true))
  ∧ (Request.Status msg = false →
     (OnPresence s now c payload).1 = (RespNil, true)).
Proof.
  intros Hok. split; [done|]. split; [done|].
  rewrite (OnPresence_authorized s now c payload f key Hok).
  split; intros ->; done.
Qed.

(** C10.  Whenever [OnPresence] returns an error response, it returns
    [false] and its log is empty: no [Subscribe], no [Unsubscribe], no
    aggregation.  Whatever the bus does with the calls it receives, its
    state after the request is its state before. *)
Theorem OnPresence_error_no_effect s now c payload e :
  (OnPresence s now c payload).1.1 = RespError e →
  (OnPresence s now c payload).1.2 = false
  ∧ (OnPresence s now c payload).2 = []
  ∧ ∀ (B : Type) (step : B → Call → B) (st : B),
      foldl step st (OnPresence s now c payload).2 = st.
Proof.
  destruct (OnPresence_cases s now c payload) as [[e' ->]|(f & key & Hok)].
  - done.
  - rewrite (OnPresence_authorized s now c payload f key Hok).
    by destruct (Request.Status (presence_request f)).
Qed.

End Handlers.

(** ** Status aggregation *)

Section Aggregation.
Implicit Types (seen : gset string) (l : list Info.t) (x : Info.t)
  (ps : list (list Info.t)).

Lemma merge_ids seen l (id : string) :
  id ∈ Info.ID <$> merge seen l ↔ id ∈ Info.ID <$> l ∧ id ∉ seen.
Proof.
  revert seen. induction l as [|y l IH]; intros seen; simpl.
  { rewrite elem_of_nil. tauto. }
  case_decide as Hy; simpl.
  - rewrite IH, !elem_of_cons.
    split; [tauto|]. intros [[->|?] ?]; [done|tauto].
  - rewrite !elem_of_cons, IH, not_elem_of_union, not_elem_of_singleton.
    destruct (decide (id = Info.ID y)) as [->|?]; tauto.
Qed.

Lemma merge_NoDup seen l : NoDup (Info.ID <$> merge seen l).
Proof.
  revert seen. induction l as [|y l IH]; intros seen; simpl.
  { constructor. }
  case_decide as Hy; simpl; [apply IH|].
  constructor; [|apply IH].
  rewrite merge_ids. intros [_ Hn].
  by apply Hn, elem_of_union_l, elem_of_singleton.
Qed.

Lemma merge_sublist seen l : merge seen l `sublist_of` l.
Proof.
  revert seen. induction l as [|y l IH]; intros seen; simpl.
  { constructor. }
  case_decide; [apply sublist_cons, IH|apply sublist_skip, IH].
Qed.

(** The first entry of [l] that carries the identifier [id]. *)
Lemma merge_first_seen seen l x :
  x ∈ merge seen l →
  head (filter (λ y, Info.ID y = Info.ID x) l) = Some x.
Proof.
  revert seen. induction l as [|y l IH]; intros seen; simpl.
  { by rewrite elem_of_nil. }
  case_decide as Hy.
  - intros Hx.
    assert (Info.ID x ∉ seen) as Hns.
    { apply (list_elem_of_fmap_2 Info.ID) in Hx.
      by apply merge_ids in Hx as [_ ?]. }
    rewrite filter_cons_False by congruence. by eapply IH.
  - rewrite elem_of_cons. intros [->|Hx].
    + by rewrite filter_cons_True.
    + assert (Info.ID x ∉ ({[Info.ID y]} ∪ seen : gset string)) as Hns.
      { apply (list_elem_of_fmap_2 Info.ID) in Hx.
        by apply merge_ids in Hx as [_ ?]. }
      rewrite filter_cons_False.
      2: { intros Heq. apply Hns, elem_of_union_l, elem_of_singleton.
           by symmetry. }
      by eapply IH.
Qed.

Lemma filter_ids_absent l (id : string) :
  id ∉ Info.ID <$> l → filter (λ y, Info.ID y = id) l = [].
Proof.
  induction l as [|y l IH]; simpl; [done|].
  rewrite not_elem_of_cons. intros [Hne Hl].
  rewrite filter_cons_False by congruence. by apply IH.
Qed.

Lemma NoDup_ids_once l (id : string) :
  NoDup (Info.ID <$> l) →
  id ∈ Info.ID <$> l →
  length (filter (λ y, Info.ID y = id) l) = 1%nat.
Proof.
  induction l as [|y l IH]; simpl.
  { by rewrite elem_of_nil. }
  rewrite NoDup_cons, elem_of_cons. intros [Hy Hnd] Hin.
  destruct (decide (Info.ID y = id)) as [<-|Hne].
  - rewrite filter_cons_True by done. simpl.
    by rewrite filter_ids_absent.
  - rewrite filter_cons_False by done. apply IH; [done|].
    by destruct Hin as [->|].
Qed.

Lemma concat_Permutation ps ps' : ps ≡ₚ ps' → concat ps ≡ₚ concat ps'.
Proof.
  induction 1 as [|p ps1 ps2 _ IH|p q ps1|ps1 ps2 ps3 _ IH1 _ IH2]; simpl.
  - done.
  - by rewrite IH.
  - rewrite !(assoc_L (++)). f_equiv. apply Permutation_app_comm.
  - by etrans.
Qed.

Lemma aggregate_ids ps (id : string) :
  id ∈ Info.ID <$> aggregate ps ↔ id ∈ Info.ID <$> concat ps.
Proof.
  unfold aggregate. rewrite merge_ids.
  split; [tauto|]. intros ?. split; [done|apply not_elem_of_empty].
Qed.

(** C2.  The aggregation of the partial answers [ps] (the local answer and
    the answers of the peers) is one list in which no connection identifier
    occurs twice: every identifier of a partial answer has exactly one
    entry in it, and it has no other entries.  The entries keep the order
    of the concatenated answers, and the entry kept for an identifier is
    the first one seen.  For any other arrival order [ps'] of the same
    answers the set of identifiers is the same, and the lists of
    identifiers are permutations of one another. *)
Theorem aggregate_deduplicates ps ps' :
  ps ≡ₚ ps' →
  NoDup (Info.ID <$> aggregate ps)
  ∧ (∀ id, id ∈ Info.ID <$> concat ps →
       length (filter (λ y, Info.ID y = id) (aggregate ps)) = 1%nat)
  ∧ (∀ id, id ∈ Info.ID <$> aggregate ps → id ∈ Info.ID <$> concat ps)
  ∧ aggregate ps `sublist_of` concat ps
  ∧ (∀ x, x ∈ aggregate ps →
       head (filter (λ y, Info.ID y = Info.ID x) (concat ps)) = Some x)
  ∧ (list_to_set (Info.ID <$> aggregate ps) : gset string)
      = list_to_set (Info.ID <$> aggregate ps')
  ∧ Info.ID <$> aggregate ps ≡ₚ Info.ID <$> aggregate ps'.
Proof.
  intros Hp.
  assert (∀ id, id ∈ Info.ID <$> aggregate ps ↔ id ∈ Info.ID <$> aggregate ps')
    as Hsame.
  { intros id. rewrite !aggregate_ids. by rewrite (concat_Permutation _ _ Hp). }
  split_and!.
  - apply merge_NoDup.
  - intros id Hid. apply NoDup_ids_once; [apply merge_NoDup|].
    by apply aggregate_ids.
  - intros id. by rewrite aggregate_ids.
  - apply merge_sublist.
  - intros x. apply merge_first_seen.
  - apply set_eq. intros id. rewrite !elem_of_list_to_set. apply Hsame.
  - apply NoDup_Permutation; [apply merge_NoDup..|apply Hsame].
Qed.

End Aggregation.

(** ** The claims about channels, the HTTP handler and [Notify] *)

Section Adapters.
Context `{Security} `{Messaging} `{Json} `{!Codec}.
Implicit Types (s : Service) (c : Conn.t) (f : Fields.t) (key : Key)
  (r : http.Request).

Lemma rejected_iff_invalid s now c payload f :
  Unmarshal payload = Some f →
  (OnPresence s now c payload).1.1 = RespError errors.ErrBadRequest
  ↔ Channel.ChannelType (presence_channel (presence_request f))
      = Channel.ChannelInvalid.
Proof.
  intros E. split.
  - intros Hr.
    destruct (decide (Channel.ChannelType
                        (presence_channel (presence_request f))
                      = Channel.ChannelInvalid)) as [|Hty]; [done|].
    exfalso.
    destruct (Authorize (auth s) (presence_channel (presence_request f))
                AllowPresence)
      as [[ct key] [|]] eqn:Ha.
    2: { by rewrite (OnPresence_denied s now c payload f ct key) in Hr. }
    destruct (HasPermission key AllowExtend) eqn:Hx.
    { by rewrite (OnPresence_extend s now c payload f ct key) in Hr. }
    assert (Authorized s payload f key) as Hok by (by exists ct).
    rewrite (OnPresence_authorized s now c payload f key Hok) in Hr.
    by destruct (Request.Status (presence_request f)).
  - intros Hty. by rewrite (OnPresence_invalid s now c payload f).
Qed.

Lemma http_rejected_iff_invalid s now r f :
  http.Method r = "POST" →
  Decode (http.Body r) = Some f →
  http.status (OnHTTPPresence s now http.fresh r).1
    = Some http.StatusBadRequest
  ↔ Channel.ChannelType (http_channel (http_request f))
      = Channel.ChannelInvalid.
Proof.
  intros Hm E. split.
  - intros Hr.
    destruct (decide (Channel.ChannelType (http_channel (http_request f))
                      = Channel.ChannelInvalid)) as [|Hty]; [done|].
    exfalso.
    destruct (Authorize (auth s) (http_channel (http_request f)) AllowPresence)
      as [[ct key] [|]] eqn:Ha.
    2: { by rewrite (OnHTTPPresence_denied s now _ r f ct key) in Hr. }
    rewrite (OnHTTPPresence_allowed s now _ r f ct key) in Hr by done.
    simpl in Hr. by destruct (Marshal _).
  - intros Hty. by rewrite (OnHTTPPresence_invalid s now _ r f).
Qed.

(** C7.  A topic that does not end in a slash gets exactly one slash
    appended, a topic that ends in one is left as it is, and either way the
    result ends in a slash.  The parser is run on the key (or the fixed
    prefix [emitter]), a slash and that text; it succeeds exactly when the
    channel it returns is static or wildcard.  A decoded request is
    rejected with [ErrBadRequest], respectively with status 400, exactly
    when the parser returns an invalid channel, and then nothing has been
    subscribed, aggregated or written to the body of the response. *)
Theorem channel_normalization s now c payload r f (topic : string) :
  (HasSuffix topic "/" = false →
     ensure_trailing_slash topic = topic +:+ "/"
     ∧ String.length (ensure_trailing_slash topic)
         = S (String.length topic))
  ∧ (HasSuffix topic "/" = true → ensure_trailing_slash topic = topic)
  ∧ HasSuffix (ensure_trailing_slash topic) "/" = true
  ∧ (∀ text,
       Channel.ChannelType (ParseChannel text) ≠ Channel.ChannelInvalid
       ↔ Channel.ChannelType (ParseChannel text) = Channel.ChannelStatic
         ∨ Channel.ChannelType (ParseChannel text) = Channel.ChannelWildcard)
  ∧ (Unmarshal payload = Some f →
     let channel :=
       ParseChannel (default "" (Fields.key f) +:+ "/" +:+
                     ensure_trailing_slash (default "" (Fields.channel f))) in
     ((OnPresence s now c payload).1.1 = RespError errors.ErrBadRequest
      ↔ Channel.ChannelType channel = Channel.ChannelInvalid)
     ∧ (Channel.ChannelType channel = Channel.ChannelInvalid →
        OnPresence s now c payload
          = (RespError errors.ErrBadRequest, false, [])))
  ∧ (http.Method r = "POST" → Decode (http.Body r) = Some f →
     let channel :=
       ParseChannel ("emitter/" +:+
                     ensure_trailing_slash (default "" (Fields.channel f))) in
     (http.status (OnHTTPPresence s now http.fresh r).1
        = Some http.StatusBadRequest
      ↔ Channel.ChannelType channel = Channel.ChannelInvalid)
     ∧ (Channel.ChannelType channel = Channel.ChannelInvalid →
        OnHTTPPresence s now http.fresh r
          = ({| http.status := Some 400; http.body := "" |}, [BodyClose]))).
Proof.
  split_and!.
  - intros E. unfold ensure_trailing_slash. rewrite E. simpl.
    split; [done|apply length_app_slash].
  - intros E. unfold ensure_trailing_slash. by rewrite E.
  - apply ensure_trailing_slash_suffix.
  - intros text. destruct (Channel.ChannelType (ParseChannel text));
      intuition congruence.
  - intros E. split.
    + by apply rejected_iff_invalid.
    + intros Hty. by apply (OnPresence_invalid s now c payload f).
  - intros Hm E. split.
    + by apply http_rejected_iff_invalid.
    + intros Hty. by rewrite (OnHTTPPresence_invalid s now _ r f).
Qed.

(** C4.  The status codes of the HTTP handler on a fresh response writer:
    404 for a method other than POST; 400 for a body that does not decode
    and for a channel that parses as invalid; 401 when the authorizer does
    not allow the request; 500 when the response does not encode; and
    otherwise 200 with the encoded response as body.  Every response other
    than the 200 has an empty body. *)
Theorem http_status_codes s now r :
  let w := (OnHTTPPresence s now http.fresh r).1 in
  (http.Method r ≠ "POST" →
     w = {| http.status := Some 404; http.body := "" |})
  ∧ (http.Method r = "POST" → Decode (http.Body r) = None →
     w = {| http.status := Some 400; http.body := "" |})
  ∧ (∀ f, http.Method r = "POST" → Decode (http.Body r) = Some f →
     let channel := http_channel (http_request f) in
     (Channel.ChannelType channel = Channel.ChannelInvalid →
        w = {| http.status := Some 400; http.body := "" |})
     ∧ (Channel.ChannelType channel ≠ Channel.ChannelInvalid →
        ∀ ct key allowed,
          Authorize (auth s) channel AllowPresence = (ct, key, allowed) →
          let ssid := NewSsid (KeyContract key) (Channel.Query channel) in
          let response :=
            {| Response.Time := now;
               Response.Event := "status";
               Response.Channel := Request.Channel (http_request f);
               Response.Who :=
                 aggregate (local_presence s ssid :: survey s ssid) |} in
          (allowed = false →
             w = {| http.status := Some 401; http.body := "" |})
          ∧ (allowed = true → Marshal response = None →
             w = {| http.status := Some 500; http.body := "" |})
          ∧ (allowed = true → ∀ encoded, Marshal response = Some encoded →
             w = {| http.status := Some 200; http.body := encoded |}))).
Proof.
  cbv zeta. split_and!.
  - intros Hm. by rewrite OnHTTPPresence_method.
  - intros Hm E. by rewrite OnHTTPPresence_malformed.
  - intros f Hm E. split.
    + intros Hty. by rewrite (OnHTTPPresence_invalid s now _ r f).
    + intros Hty ct key allowed Ha. split_and!.
      * intros ->. by rewrite (OnHTTPPresence_denied s now _ r f ct key).
      * intros -> Hj.
        rewrite (OnHTTPPresence_allowed s now _ r f ct key) by done.
        unfold EventTypeStatus. cbn [fst]. by rewrite Hj.
      * intros -> encoded Hj.
        rewrite (OnHTTPPresence_allowed s now _ r f ct key) by done.
        unfold EventTypeStatus. cbn [fst]. by rewrite Hj.
Qed.

Lemma OnHTTPPresence_no_registration s now w r :
  List.filter is_registration (OnHTTPPresence s now w r).2 = [].
Proof.
  destruct (decide (http.Method r = "POST")) as [Hm|Hm].
  2: { by rewrite OnHTTPPresence_method. }
  destruct (Decode (http.Body r)) as [f|] eqn:E.
  2: { by rewrite OnHTTPPresence_malformed. }
  destruct (decide (Channel.ChannelType (http_channel (http_request f))
                    = Channel.ChannelInvalid)) as [Hty|Hty].
  { by rewrite (OnHTTPPresence_invalid s now w r f). }
  destruct (Authorize (auth s) (http_channel (http_request f)) AllowPresence)
    as [[ct key] [|]] eqn:Ha.
  2: { by rewrite (OnHTTPPresence_denied s now w r f ct key). }
  by rewrite (OnHTTPPresence_allowed s now w r f ct key).
Qed.

(** C8.  Whatever the request and its body, the HTTP handler makes no
    [Subscribe] and no [Unsubscribe] call, also when the body sets the
    changes flag.  Every POST whose body decodes to a valid channel that
    the authorizer allows is answered with the aggregation, whatever its
    status and changes flags say: the aggregation for the SSID of the
    channel is the one call on the service, and the answer is status 200
    with the encoding of the status response that carries the aggregated
    list (status 500 when the response does not encode).  Conversely, a
    request answered with status 200 is such a request and its body is
    that encoding. *)
Theorem http_no_subscription s now r :
  (∀ w, List.filter is_registration (OnHTTPPresence s now w r).2 = [])
  ∧ (∀ f ct key,
       http.Method r = "POST" →
       Decode (http.Body r) = Some f →
       Channel.ChannelType (http_channel (http_request f))
         ≠ Channel.ChannelInvalid →
       Authorize (auth s) (http_channel (http_request f)) AllowPresence
         = (ct, key, true) →
       let ssid := NewSsid (KeyContract key)
                     (Channel.Query (http_channel (http_request f))) in
       let response :=
         {| Response.Time := now;
            Response.Event := "status";
            Response.Channel := Request.Channel (http_request f);
            Response.Who :=
              aggregate (local_presence s ssid :: survey s ssid) |} in
       (OnHTTPPresence s now http.fresh r).2
         = [GetAllPresence ssid; BodyClose]
       ∧ (∀ encoded, Marshal response = Some encoded →
          (OnHTTPPresence s now http.fresh r).1
            = {| http.status := Some 200; http.body := encoded |})
       ∧ (Marshal response = None →
          (OnHTTPPresence s now http.fresh r).1
            = {| http.status := Some 500; http.body := "" |}))
  ∧ (http.status (OnHTTPPresence s now http.fresh r).1
       = Some http.StatusOK →
     ∃ f ct key,
       Decode (http.Body r) = Some f
       ∧ Authorize (auth s) (http_channel (http_request f)) AllowPresence
           = (ct, key, true)
       ∧ let ssid := NewSsid (KeyContract key)
                       (Channel.Query (http_channel (http_request f))) in
         (OnHTTPPresence s now http.fresh r).2
           = [GetAllPresence ssid; BodyClose]
         ∧ Marshal {| Response.Time := now;
                      Response.Event := "status";
                      Response.Channel := Request.Channel (http_request f);
                      Response.Who :=
                        aggregate (local_presence s ssid :: survey s ssid) |}
           = Some (http.body (OnHTTPPresence s now http.fresh r).1)).
Proof.
  split; [intros w; apply OnHTTPPresence_no_registration|].
  split.
  { intros f ct key Hm E Hty Ha. cbv zeta.
    rewrite (OnHTTPPresence_allowed s now _ r f ct key) by done.
    unfold EventTypeStatus. cbn [fst snd]. split_and!.
    - done.
    - by intros encoded ->.
    - by intros ->. }
  destruct (decide (http.Method r = "POST")) as [Hm|Hm].
  2: { by rewrite OnHTTPPresence_method. }
  destruct (Decode (http.Body r)) as [f|] eqn:E.
  2: { by rewrite OnHTTPPresence_malformed. }
  destruct (decide (Channel.ChannelType (http_channel (http_request f))
                    = Channel.ChannelInvalid)) as [Hty|Hty].
  { by rewrite (OnHTTPPresence_invalid s now _ r f). }
  destruct (Authorize (auth s) (http_channel (http_request f)) AllowPresence)
    as [[ct key] [|]] eqn:Ha.
  2: { by rewrite (OnHTTPPresence_denied s now _ r f ct key). }
  rewrite (OnHTTPPresence_allowed s now _ r f ct key) by done.
  unfold EventTypeStatus. cbn [fst snd].
  destruct (Marshal _) as [encoded|] eqn:Hj; [|done].
  intros _. by exists f, ct, key.
Qed.

(** C9.  When the event does not encode, [Notify] publishes nothing and
    returns normally.  When it encodes, [Notify] makes exactly one call on
    the bus: the publication of the message built from the SSID of the
    event, the channel [emitter/presence/] and the encoded payload, with
    the filter of the caller. *)
Theorem Notify_publishes s (ev : Notification) (filter : Subscriber → bool) :
  (Encode ev = None → Notify s ev filter = ((), []))
  ∧ (∀ encoded, Encode ev = Some encoded →
     Notify s ev filter =
       ((), [Publish {| Message_Ssid := Notification_Ssid ev;
                        Message_Channel := "emitter/presence/";
                        Message_Payload := encoded |} filter])).
Proof.
  split.
  - intros E. run. by rewrite E.
  - intros encoded E. run. by rewrite E.
Qed.

End Adapters.

(** ** Further properties of the handlers *)

Section Further.
Context `{Security} `{Messaging} `{Json} `{!Codec}.
Implicit Types (s : Service) (c : Conn.t) (f g : Fields.t) (key : Key)
  (r : http.Request).

(** The five ways a run of [OnPresence] can go. *)
Lemma OnPresence_outcome s now c payload :
  (Unmarshal payload = None
   ∧ OnPresence s now c payload = (RespError errors.ErrBadRequest, false, []))
  ∨ (∃ f, Unmarshal payload = Some f
      ∧ Channel.ChannelType (presence_channel (presence_request f))
          = Channel.ChannelInvalid
      ∧ OnPresence s now c payload
          = (RespError errors.ErrBadRequest, false, []))
  ∨ (∃ f ct key, Unmarshal payload = Some f
      ∧ Channel.ChannelType (presence_channel (presence_request f))
          ≠ Channel.ChannelInvalid
      ∧ Authorize (auth s) (presence_channel (presence_request f))
          AllowPresence = (ct, key, false)
      ∧ OnPresence s now c payload
          = (RespError errors.ErrUnauthorized, false, []))
  ∨ (∃ f ct key, Unmarshal payload = Some f
      ∧ Channel.ChannelType (presence_channel (presence_request f))
          ≠ Channel.ChannelInvalid
      ∧ Authorize (auth s) (presence_channel (presence_request f))
          AllowPresence = (ct, key, true)
      ∧ HasPermission key AllowExtend = true
      ∧ OnPresence s now c payload
          = (RespError errors.ErrUnauthorizedExt, false, []))
  ∨ (∃ f key, Authorized s payload f key).
Proof.
  destruct (Unmarshal payload) as [f|] eqn:E.
  2: { left. split; [done|]. by apply OnPresence_malformed. }
  right.
  destruct (decide (Channel.ChannelType (presence_channel (presence_request f))
                    = Channel.ChannelInvalid)) as [Hty|Hty].
  { left. exists f. split_and!; [done..|]. by eapply OnPresence_invalid. }
  right.
  destruct (Authorize (auth s) (presence_channel (presence_request f))
              AllowPresence) as [[ct key] [|]] eqn:Ha.
  2: { left. exists f, ct, key. split_and!; [done..|].
       by eapply OnPresence_denied. }
  right.
  destruct (HasPermission key AllowExtend) eqn:Hx.
  { left. exists f, ct, key. split_and!; [done..|].
    by eapply OnPresence_extend. }
  right. exists f, key, ct. done.
Qed.

Lemma authorized_no_error s now c payload f key :
  Authorized s payload f key →
  is_error (OnPresence s now c payload).1.1 = false.
Proof.
  intros Hok. rewrite (OnPresence_authorized s now c payload f key Hok).
  by destruct (Request.Status (presence_request f)).
Qed.

(** X1.  Which error [OnPresence] answers with.  [ErrBadRequest]: the
    payload does not decode or the channel is invalid.  [ErrUnauthorized]:
    the payload decodes, the channel is valid and the authorizer does not
    allow the request, whatever the permissions of the key it returns.
    [ErrUnauthorizedExt]: the payload decodes, the channel is valid, the
    authorizer allows the request and the key carries the extend
    permission. *)
Theorem OnPresence_error_classes s now c payload :
  ((OnPresence s now c payload).1.1 = RespError errors.ErrBadRequest
   ↔ Unmarshal payload = None
     ∨ ∃ f, Unmarshal payload = Some f
         ∧ Channel.ChannelType (presence_channel (presence_request f))
             = Channel.ChannelInvalid)
  ∧ ((OnPresence s now c payload).1.1 = RespError errors.ErrUnauthorized
     ↔ ∃ f ct key, Unmarshal payload = Some f
         ∧ Channel.ChannelType (presence_channel (presence_request f))
             ≠ Channel.ChannelInvalid
         ∧ Authorize (auth s) (presence_channel (presence_request f))
             AllowPresence = (ct, key, false))
  ∧ ((OnPresence s now c payload).1.1 = RespError errors.ErrUnauthorizedExt
     ↔ ∃ f ct key, Unmarshal payload = Some f
         ∧ Channel.ChannelType (presence_channel (presence_request f))
             ≠ Channel.ChannelInvalid
         ∧ Authorize (auth s) (presence_channel (presence_request f))
             AllowPresence = (ct, key, true)
         ∧ HasPermission key AllowExtend = true).
Proof.
  split_and!; split.
  - destruct (OnPresence_outcome s now c payload)
      as [[E _]|[(f & E & Hty & _)|[(f & ct & key & _ & _ & _ & ->)
         |[(f & ct & key & _ & _ & _ & _ & ->)|(f & key & Hok)]]]].
    + by left.
    + right. by exists f.
    + done.
    + done.
    + intros Hr. pose proof (authorized_no_error s now c _ _ _ Hok) as Hne.
      by rewrite Hr in Hne.
  - intros [E|(f & E & Hty)].
    + by rewrite OnPresence_malformed.
    + by rewrite (OnPresence_invalid s now c payload f).
  - destruct (OnPresence_outcome s now c payload)
      as [[_ ->]|[(f & _ & _ & ->)|[(f & ct & key & E & Hty & Ha & _)
         |[(f & ct & key & _ & _ & _ & _ & ->)|(f & key & Hok)]]]].
    + done.
    + done.
    + intros _. by exists f, ct, key.
    + done.
    + intros Hr. pose proof (authorized_no_error s now c _ _ _ Hok) as Hne.
      by rewrite Hr in Hne.
  - intros (f & ct & key & E & Hty & Ha).
    by rewrite (OnPresence_denied s now c payload f ct key).
  - destruct (OnPresence_outcome s now c payload)
      as [[_ ->]|[(f & _ & _ & ->)|[(f & ct & key & _ & _ & _ & ->)
         |[(f & ct & key & E & Hty & Ha & Hx & _)|(f & key & Hok)]]]].
    + done.
    + done.
    + done.
    + intros _. by exists f, ct, key.
    + intros Hr. pose proof (authorized_no_error s now c _ _ _ Hok) as Hne.
      by rewrite Hr in Hne.
  - intros (f & ct & key & E & Hty & Ha & Hx).
    by rewrite (OnPresence_extend s now c payload f ct key).
Qed.

(** X2.  The calls of a run of [OnPresence], in order: at most one
    [Subscribe] or [Unsubscribe] of the requesting connection, then at
    most one aggregation; never a [Publish], a [Close] or anything else.
    The SSID of the subscription event is the presence variant of the SSID
    that is aggregated.  The aggregation is made exactly when a status
    response is returned: a request that returns no response object or an
    error does not query the cluster. *)
Theorem OnPresence_calls s now c payload :
  ∃ (ssid : Ssid) (ev : Subscription) (regs aggs : list Call),
    (OnPresence s now c payload).2 = regs ++ aggs
    ∧ (regs = [] ∨ regs = [Subscribe c ev] ∨ regs = [Unsubscribe c ev])
    ∧ Subscription_Ssid ev = NewSsidForPresence ssid
    ∧ Subscription_Conn ev = Conn.LocalID c
    ∧ (aggs = [] ∨ aggs = [GetAllPresence ssid])
    ∧ (aggs = [GetAllPresence ssid]
       ↔ ∃ resp, (OnPresence s now c payload).1.1 = RespPresence resp).
Proof.
  destruct (OnPresence_cases s now c payload) as [[e ->]|(f & key & Hok)].
  { exists (NewSsid 0 []),
      {| Subscription_Conn := Conn.LocalID c;
         Subscription_User := "";
         Subscription_Ssid := NewSsidForPresence (NewSsid 0 []);
         Subscription_Channel := "" |}, [], [].
    split_and!; try done; [by left|by left|].
    split; [done|]. by intros [resp ?]. }
  rewrite (OnPresence_authorized s now c payload f key Hok).
  set (msg := presence_request f).
  exists (NewSsid (KeyContract key) (Channel.Query (presence_channel msg))),
    (subscription_event c (presence_channel msg) key),
    (registration c msg key).
  assert (registration c msg key = []
          ∨ registration c msg key
            = [Subscribe c (subscription_event c (presence_channel msg) key)]
          ∨ registration c msg key
            = [Unsubscribe c (subscription_event c (presence_channel msg) key)])
    as Hreg.
  { unfold registration. destruct (Request.Changes msg) as [[|]|]; auto. }
  destruct (Request.Status msg).
  - eexists. split_and!; [done..|by right|]. split; [by eexists|done].
  - exists []. split_and!; [by rewrite app_nil_r|done..|by left|].
    split; [done|]. by intros [resp ?].
Qed.

(** X3.  The response of [OnPresence], with its boolean, does not depend
    on the connection that asks nor on the changes flag of the payload:
    two payloads that set the same key, channel and status get the same
    answer on any two connections. *)
Theorem OnPresence_response_frame s now c c' payload payload' f f' :
  Unmarshal payload = Some f →
  Unmarshal payload' = Some f' →
  Fields.key f = Fields.key f' →
  Fields.channel f = Fields.channel f' →
  Fields.status f = Fields.status f' →
  (OnPresence s now c payload).1 = (OnPresence s now c' payload').1.
Proof.
  intros E E' Hk Hc Hs. run. rewrite E, E', Hk, Hc, Hs.
  case_decide; [done|].
  destruct (Authorize _ _ _) as [[ct key] [|]]; simpl; [|done].
  destruct (HasPermission key AllowExtend); [done|].
  destruct (default None (Fields.changes f)) as [[|]|],
    (default None (Fields.changes f')) as [[|]|],
    (default true (Fields.status f')); done.
Qed.

Lemma ensure_trailing_slash_idemp (t : string) :
  ensure_trailing_slash (ensure_trailing_slash t) = ensure_trailing_slash t.
Proof.
  unfold ensure_trailing_slash at 1.
  by rewrite ensure_trailing_slash_suffix.
Qed.

(** X4.  A channel text and its slash-terminated form are the same
    request.  When two documents set the same fields except that the
    second carries the channel of the first with its trailing slash put
    in (a channel left out counts as the empty text), both handlers do
    the same on them: same result, same calls. *)
Theorem trailing_slash_equivalent s now c w payload payload' r r' f f' :
  Fields.key f' = Fields.key f →
  Fields.status f' = Fields.status f →
  Fields.changes f' = Fields.changes f →
  Fields.channel f'
    = Some (ensure_trailing_slash (default "" (Fields.channel f))) →
  (Unmarshal payload = Some f → Unmarshal payload' = Some f' →
   OnPresence s now c payload' = OnPresence s now c payload)
  ∧ (http.Method r = "POST" → http.Method r' = "POST" →
     Decode (http.Body r) = Some f → Decode (http.Body r') = Some f' →
     OnHTTPPresence s now w r' = OnHTTPPresence s now w r).
Proof.
  intros Hk Hs Hg Hc. split.
  - intros E E'. run. rewrite E, E', Hk, Hs, Hg, Hc. simpl.
    by rewrite ensure_trailing_slash_idemp.
  - intros Hm%String.eqb_eq Hm'%String.eqb_eq E E'. run.
    rewrite Hm, Hm', E, E', Hc. simpl.
    by rewrite ensure_trailing_slash_idemp.
Qed.

(** X5.  The HTTP handler reads nothing but the channel of the body: two
    POST requests whose bodies set the same channel are treated alike,
    whatever key, status flag or changes flag they carry. *)
Theorem OnHTTPPresence_reads_only_channel s now w r r' f f' :
  http.Method r = "POST" → http.Method r' = "POST" →
  Decode (http.Body r) = Some f → Decode (http.Body r') = Some f' →
  Fields.channel f = Fields.channel f' →
  OnHTTPPresence s now w r = OnHTTPPresence s now w r'.
Proof.
  intros Hm%String.eqb_eq Hm'%String.eqb_eq E E' Hc. run.
  by rewrite Hm, Hm', E, E', Hc.
Qed.

(** X6.  The body of the request is closed exactly when the request is a
    POST whose body decoded, and then as the last call, after the
    aggregation if there is one.  A request with another method or with a
    body that does not decode makes no call at all: its body is left
    open. *)
Theorem OnHTTPPresence_body_close s now w r :
  (http.Method r = "POST" → is_Some (Decode (http.Body r)) →
   ∃ calls, (OnHTTPPresence s now w r).2 = calls ++ [BodyClose]
     ∧ (calls = [] ∨ ∃ ssid, calls = [GetAllPresence ssid]))
  ∧ (http.Method r ≠ "POST" ∨ Decode (http.Body r) = None →
     (OnHTTPPresence s now w r).2 = []).
Proof.
  split.
  - intros Hm [f E].
    destruct (decide (Channel.ChannelType (http_channel (http_request f))
                      = Channel.ChannelInvalid)) as [Hty|Hty].
    { rewrite (OnHTTPPresence_invalid s now w r f) by done.
      exists []. split; [done|by left]. }
    destruct (Authorize (auth s) (http_channel (http_request f))
                AllowPresence) as [[ct key] [|]] eqn:Ha.
    2: { rewrite (OnHTTPPresence_denied s now w r f ct key) by done.
         exists []. split; [done|by left]. }
    rewrite (OnHTTPPresence_allowed s now w r f ct key) by done.
    eexists [_]. split; [done|]. right. by eexists.
  - intros [Hm|E].
    + by rewrite OnHTTPPresence_method.
    + destruct (decide (http.Method r = "POST")) as [Hm|Hm].
      * by rewrite OnHTTPPresence_malformed.
      * by rewrite OnHTTPPresence_method.
Qed.

(** X7.  The two entry points agree.  When [OnPresence] answers a payload
    under the key [emitter] with a status response, the HTTP handler
    answers a POST for the same channel with the encoding of that very
    response and status 200, or with status 500 when the response does
    not encode. *)
Theorem http_agrees_with_protocol s now c payload r f g resp :
  Unmarshal payload = Some f →
  Fields.key f = Some "emitter" →
  http.Method r = "POST" →
  Decode (http.Body r) = Some g →
  Fields.channel g = Fields.channel f →
  (OnPresence s now c payload).1.1 = RespPresence resp →
  (OnHTTPPresence s now http.fresh r).1 =
    match Marshal resp with
    | Some encoded => {| http.status := Some 200; http.body := encoded |}
    | None => {| http.status := Some 500; http.body := "" |}
    end.
Proof.
  intros E Hk Hm Eg Hc Hr.
  assert (http_channel (http_request g) = presence_channel (presence_request f))
    as Hch.
  { unfold http_channel, presence_channel, http_request, presence_request.
    simpl. by rewrite Hk, Hc. }
  assert (Request.Channel (http_request g)
          = Request.Channel (presence_request f)) as Htxt.
  { unfold http_request, presence_request. simpl. by rewrite Hc. }
  destruct (OnPresence_outcome s now c payload)
    as [[_ Ho]|[(f1 & _ & _ & Ho)|[(f1 & ct & key & _ & _ & _ & Ho)
       |[(f1 & ct & key & _ & _ & _ & _ & Ho)|(f1 & key & Hok)]]]];
    try (by rewrite Ho in Hr).
  pose proof Hok as (ct & E1 & Hty & Ha & Hx).
  rewrite E in E1. injection E1 as <-.
  rewrite (OnPresence_authorized s now c payload f key Hok) in Hr.
  destruct (Request.Status (presence_request f)); [|done].
  injection Hr as <-.
  rewrite (OnHTTPPresence_allowed s now _ r g ct key) by (by rewrite ?Hch).
  rewrite Hch, Htxt. cbn [fst]. by destruct (Marshal _).
Qed.

(** X8.  On a key that carries the extend permission the two entry points
    differ.  For a channel that is valid and allowed under the key
    [emitter], [OnPresence] rejects the request with
    [ErrUnauthorizedExt] and makes no call, while the HTTP handler
    aggregates and answers 200, or 500 when the response does not
    encode. *)
Theorem entry_points_differ_on_extend s now c payload r f g ct key :
  Unmarshal payload = Some f →
  Fields.key f = Some "emitter" →
  http.Method r = "POST" →
  Decode (http.Body r) = Some g →
  Fields.channel g = Fields.channel f →
  Channel.ChannelType (presence_channel (presence_request f))
    ≠ Channel.ChannelInvalid →
  Authorize (auth s) (presence_channel (presence_request f)) AllowPresence
    = (ct, key, true) →
  HasPermission key AllowExtend = true →
  let ssid := NewSsid (KeyContract key)
                (Channel.Query (presence_channel (presence_request f))) in
  OnPresence s now c payload
    = (RespError errors.ErrUnauthorizedExt, false, [])
  ∧ (OnHTTPPresence s now http.fresh r).2 = [GetAllPresence ssid; BodyClose]
  ∧ (http.status (OnHTTPPresence s now http.fresh r).1 = Some 200
     ∨ http.status (OnHTTPPresence s now http.fresh r).1 = Some 500).
Proof.
  intros E Hk Hm Eg Hc Hty Ha Hx ssid.
  assert (http_channel (http_request g) = presence_channel (presence_request f))
    as Hch.
  { unfold http_channel, presence_channel, http_request, presence_request.
    simpl. by rewrite Hk, Hc. }
  split; [by apply (OnPresence_extend s now c payload f ct key)|].
  rewrite (OnHTTPPresence_allowed s now _ r g ct key) by (by rewrite ?Hch).
  rewrite Hch. split; [done|]. cbn [fst].
  destruct (Marshal _); [by left|by right].
Qed.

(** X9.  The only question either handler puts to the authorizer is
    whether presence is allowed on the channel of the request.  Replacing
    the authorizer by one that gives the same answer to that question
    changes nothing, whatever it answers for other channels and other
    permissions. *)
Theorem authorizer_asked_for_presence_only s (a' : Authorizer) now c w
    payload r :
  let s' := {| auth := a';
               local_presence := local_presence s;
               survey := survey s |} in
  ((∀ f, Unmarshal payload = Some f →
      Authorize a' (presence_channel (presence_request f)) AllowPresence
      = Authorize (auth s) (presence_channel (presence_request f))
          AllowPresence) →
   OnPresence s' now c payload = OnPresence s now c payload)
  ∧ ((∀ f, Decode (http.Body r) = Some f →
        Authorize a' (http_channel (http_request f)) AllowPresence
        = Authorize (auth s) (http_channel (http_request f)) AllowPresence) →
     OnHTTPPresence s' now w r = OnHTTPPresence s now w r).
Proof.
  intros s'. split.
  - intros Hsame. unfold OnPresence.
    destruct (Unmarshal payload) as [f|] eqn:E; [|done].
    specialize (Hsame f eq_refl). run. by rewrite Hsame.
  - intros Hsame. unfold OnHTTPPresence.
    destruct (negb _); [done|].
    destruct (Decode (http.Body r)) as [f|] eqn:E; [|done].
    specialize (Hsame f eq_refl). run. by rewrite Hsame.
Qed.

(** X10.  An unsubscription undoes a subscription.  For an authorized
    request that turns the changes on and a request for the same key and
    channel (up to its trailing slash) that turns them off, the event
    handed to [Unsubscribe] is the event that was handed to [Subscribe],
    whatever the status flags and the times of the two requests. *)
Theorem unsubscribe_matches_subscribe s now now' c p_on p_off f f' key :
  Authorized s p_on f key →
  Unmarshal p_off = Some f' →
  Fields.key f' = Fields.key f →
  ensure_trailing_slash (default "" (Fields.channel f'))
    = ensure_trailing_slash (default "" (Fields.channel f)) →
  Request.Changes (presence_request f) = Some true →
  Request.Changes (presence_request f') = Some false →
  ∃ ev,
    List.filter is_registration (OnPresence s now c p_on).2
      = [Subscribe c ev]
    ∧ List.filter is_registration (OnPresence s now' c p_off).2
      = [Unsubscribe c ev].
Proof.
  intros Hok E' Hk Hc Hon Hoff.
  assert (presence_channel (presence_request f')
          = presence_channel (presence_request f)) as Hch.
  { unfold presence_channel, presence_request. simpl. by rewrite Hk, Hc. }
  assert (Authorized s p_off f' key) as Hok'.
  { destruct Hok as (ct & E & Hty & Ha & Hx). exists ct.
    by rewrite Hch. }
  exists (subscription_event c (presence_channel (presence_request f)) key).
  rewrite (OnPresence_authorized s now c p_on f key Hok).
  rewrite (OnPresence_authorized s now' c p_off f' key Hok').
  unfold registration. rewrite Hon, Hoff, Hch.
  by destruct (Request.Status (presence_request f)),
    (Request.Status (presence_request f')).
Qed.

End Further.

(** * Runs on the concrete broker *)

Import Sample.

Example aggregate_first_seen :
  aggregate [[alice; bob]; [bob'; carol]] = [alice; bob; carol]
  ∧ aggregate [[bob'; carol]; [alice; bob]] = [bob'; carol; alice].
Proof. split; reflexivity. Qed.

(** The request of [K1] for [room1] with two local subscribers. *)
Example OnPresence_room1 :
  OnPresence (service keys [alice; bob] []) 1000 conn
             (payload "K1" "room1/" [json_member "status" "true"])
  = (RespPresence {| Response.Time := 1000;
                     Response.Event := "status";
                     Response.Channel := "room1/";
                     Response.Who := [alice; bob] |},
     true,
     [GetAllPresence [7; hash 0 "room1"]]).
Proof. reflexivity. Qed.

(** C1, counterexample.  The key [KX] carries the extend permission and not
    the presence permission: the authorizer does not allow it and the
    in-protocol handler answers [ErrUnauthorized], not
    [ErrUnauthorizedExt].  On the HTTP path the key the authorizer returns
    carries the extend permission and the request is served: status 200
    after an aggregation. *)
Lemma extend_key_not_always_rejected :
  (HasPermission extend_only AllowExtend = true
   ∧ Authorize (auth broker) (ParseChannel "KX/room1/") AllowPresence
       = (7, extend_only, false)
   ∧ OnPresence broker 1000 conn (payload "KX" "room1" [])
       = (RespError errors.ErrUnauthorized, false, [])
   ∧ (OnPresence broker 1000 conn (payload "KX" "room1" [])).1.1
       ≠ RespError errors.ErrUnauthorizedExt)
  ∧ (HasPermission emitter_key AllowExtend = true
     ∧ Authorize (auth broker) (ParseChannel "emitter/room1/") AllowPresence
         = (1, emitter_key, true)
     ∧ http.status
         (OnHTTPPresence broker 1000 http.fresh (post (body "room1" []))).1
         = Some 200
     ∧ (OnHTTPPresence broker 1000 http.fresh (post (body "room1" []))).2
         = [GetAllPresence [1; hash 0 "room1"]; BodyClose]).
Proof. split; split_and!; try reflexivity. by vm_compute. Qed.

Lemma extend_key_rejected_witness :
  (Authorize (auth broker) (ParseChannel "KPX/room1/") AllowPresence
     = (7, presence_and_extend, true)
   ∧ HasPermission presence_and_extend AllowExtend = true
   ∧ OnPresence broker 1000 conn
                (payload "KPX" "room1" [json_member "changes" "true"])
       = (RespError errors.ErrUnauthorizedExt, false, []))
  ∧ (Authorize (auth broker) (ParseChannel "KX/room1/") AllowPresence
       = (7, extend_only, false)
     ∧ HasPermission extend_only AllowExtend = true
     ∧ OnPresence broker 1000 conn (payload "KX" "room1" [])
         = (RespError errors.ErrUnauthorized, false, []))
  ∧ OnPresence broker 1000 conn (payload "KPX" "a//b" [])
      = (RespError errors.ErrBadRequest, false, [])
  ∧ OnPresence broker 1000 conn "garbage"
      = (RespError errors.ErrBadRequest, false, []).
Proof.
  pose proof (extend_key_rejected broker 1000 conn
                (payload "KPX" "room1" [json_member "changes" "true"]))
    as (_ & Hext).
  pose proof (extend_key_rejected broker 1000 conn (payload "KX" "room1" []))
    as (_ & Hdenied).
  pose proof (extend_key_rejected broker 1000 conn (payload "KPX" "a//b" []))
    as (_ & Hinvalid).
  pose proof (extend_key_rejected broker 1000 conn "garbage")
    as (Hmalformed & _).
  split_and!.
  - reflexivity.
  - reflexivity.
  - apply (Hext (fields (Some "KPX") (Some "room1") None (Some (Some true)))
             eq_refl)
      with (ct := 7) (key := presence_and_extend);
      [by vm_compute|reflexivity..].
  - reflexivity.
  - reflexivity.
  - apply (Hdenied (fields (Some "KX") (Some "room1") None None) eq_refl)
      with (ct := 7) (key := extend_only);
      [by vm_compute|reflexivity].
  - apply (Hinvalid (fields (Some "KPX") (Some "a//b") None None) eq_refl).
    reflexivity.
  - apply Hmalformed. reflexivity.
Defined.

(** C3, counterexample.  On a payload that is not JSON, on a key that is
    not allowed and on a key that carries the extend permission, the
    boolean returned is [false]. *)
Lemma OnPresence_returns_false :
  (OnPresence broker 1000 conn "garbage").1
    = (RespError errors.ErrBadRequest, false)
  ∧ (OnPresence broker 1000 conn (payload "KX" "room1" [])).1
    = (RespError errors.ErrUnauthorized, false)
  ∧ (OnPresence broker 1000 conn (payload "KPX" "room1" [])).1
    = (RespError errors.ErrUnauthorizedExt, false).
Proof. split_and!; reflexivity. Qed.

Lemma authorized_K1 (more : list string) (st : option bool)
    (cg : option (option bool)) :
  decode (payload "K1" "room1" more)
    = Some (fields (Some "K1") (Some "room1") st cg) →
  Authorized broker (payload "K1" "room1" more)
             (fields (Some "K1") (Some "room1") st cg) presence_only.
Proof.
  intros E. exists 7. split_and!; [exact E|by vm_compute|reflexivity..].
Defined.

Lemma changes_registration_witness :
  let ev := {| Subscription_Conn := 42;
               Subscription_User := "dave";
               Subscription_Ssid := [0; 1; 7; hash 0 "room1"];
               Subscription_Channel := "room1/" |} in
  List.filter is_registration
    (OnPresence broker 1000 conn
       (payload "K1" "room1" [json_member "changes" "true"])).2
    = [Subscribe conn ev]
  ∧ List.filter is_registration
      (OnPresence broker 1000 conn
         (payload "K1" "room1" [json_member "changes" "false"])).2
    = [Unsubscribe conn ev]
  ∧ List.filter is_registration
      (OnPresence broker 1000 conn (payload "K1" "room1" [])).2
    = []
  ∧ List.filter is_registration
      (OnPresence broker 1000 conn
         (payload "K1" "room1" [json_member "changes" "null"])).2
    = [].
Proof.
  split_and!.
  - apply (changes_registration broker 1000 conn _ _ _
             (authorized_K1 [json_member "changes" "true"] None
                            (Some (Some true)) eq_refl)).
  - apply (changes_registration broker 1000 conn _ _ _
             (authorized_K1 [json_member "changes" "false"] None
                            (Some (Some false)) eq_refl)).
  - apply (changes_registration broker 1000 conn _ _ _
             (authorized_K1 [] None None eq_refl)).
  - apply (changes_registration broker 1000 conn _ _ _
             (authorized_K1 [json_member "changes" "null"] None
                            (Some None) eq_refl)).
Defined.

Lemma status_response_witness :
  (OnPresence broker 1000 conn (payload "K1" "room1" [])).1
    = (RespPresence {| Response.Time := 1000;
                       Response.Event := "status";
                       Response.Channel := "room1/";
                       Response.Who := [alice; bob; carol] |}, true)
  ∧ (OnPresence broker 1000 conn
       (payload "K1" "room1" [json_member "status" "false"])).1
    = (RespNil, true).
Proof.
  split.
  - apply (status_response broker 1000 conn _ _ _
             (authorized_K1 [] None None eq_refl)). reflexivity.
  - apply (status_response broker 1000 conn _ _ _
             (authorized_K1 [json_member "status" "false"]
                            (Some false) None eq_refl)). reflexivity.
Defined.

Lemma OnPresence_error_no_effect_witness :
  (OnPresence broker 1000 conn (payload "KX" "room1" [])).1.1
    = RespError errors.ErrUnauthorized
  ∧ (OnPresence broker 1000 conn (payload "KX" "room1" [])).1.2 = false
  ∧ (OnPresence broker 1000 conn (payload "KX" "room1" [])).2 = [].
Proof.
  split; [reflexivity|].
  pose proof (OnPresence_error_no_effect broker 1000 conn
                (payload "KX" "room1" []) errors.ErrUnauthorized eq_refl)
    as (Hok & Hlog & _).
  by split.
Defined.

Lemma aggregate_deduplicates_witness :
  [[alice; bob]; [bob'; carol]] ≡ₚ [[bob'; carol]; [alice; bob]]
  ∧ NoDup (Info.ID <$> aggregate [[alice; bob]; [bob'; carol]])
  ∧ length (filter (λ y, Info.ID y = "B")
                   (aggregate [[alice; bob]; [bob'; carol]])) = 1%nat
  ∧ (list_to_set (Info.ID <$> aggregate [[alice; bob]; [bob'; carol]])
       : gset string)
    = list_to_set (Info.ID <$> aggregate [[bob'; carol]; [alice; bob]]).
Proof.
  assert ([[alice; bob]; [bob'; carol]] ≡ₚ [[bob'; carol]; [alice; bob]])
    as Hp by apply Permutation_swap.
  split; [exact Hp|].
  destruct (aggregate_deduplicates _ _ Hp)
    as (Hnd & Honce & _ & _ & _ & Hset & _).
  split_and!; [exact Hnd| |exact Hset].
  apply Honce. vm_compute. apply list_elem_of_In. simpl. tauto.
Defined.

Lemma http_status_codes_witness :
  (OnHTTPPresence broker 1000 http.fresh
     {| http.Method := "GET"; http.Body := body "room1" [] |}).1
    = {| http.status := Some 404; http.body := "" |}
  ∧ (OnHTTPPresence broker 1000 http.fresh (post "garbage")).1
    = {| http.status := Some 400; http.body := "" |}
  ∧ (OnHTTPPresence broker 1000 http.fresh (post (body "a//b" []))).1
    = {| http.status := Some 400; http.body := "" |}
  ∧ (OnHTTPPresence (service [] [alice] []) 1000 http.fresh
       (post (body "room1" []))).1
    = {| http.status := Some 401; http.body := "" |}
  ∧ (OnHTTPPresence (H1 := failing_json) broker 1000 http.fresh
       (post (body "room1" []))).1
    = {| http.status := Some 500; http.body := "" |}
  ∧ (OnHTTPPresence broker 1000 http.fresh (post (body "room1" []))).1
    = {| http.status := Some 200;
         http.body :=
           encode_response {| Response.Time := 1000;
                              Response.Event := "status";
                              Response.Channel := "room1/";
                              Response.Who := [alice; bob; carol] |} |}.
Proof.
  pose proof (http_status_codes broker 1000
                {| http.Method := "GET"; http.Body := body "room1" [] |})
    as (Hget & _).
  pose proof (http_status_codes broker 1000 (post "garbage"))
    as (_ & Hbody & _).
  pose proof (http_status_codes broker 1000 (post (body "a//b" [])))
    as (_ & _ & Hchannel).
  pose proof (http_status_codes (service [] [alice] []) 1000
                (post (body "room1" [])))
    as (_ & _ & Hdenied).
  pose proof (http_status_codes (H1 := failing_json) broker 1000
                (post (body "room1" [])))
    as (_ & _ & Hencode).
  pose proof (http_status_codes broker 1000 (post (body "room1" [])))
    as (_ & _ & Hserved).
  split_and!.
  - apply Hget. by vm_compute.
  - apply Hbody; reflexivity.
  - apply (Hchannel (fields None (Some "a//b") None None)); reflexivity.
  - apply (Hdenied (fields None (Some "room1") None None) eq_refl eq_refl)
      with (ct := 0) (key := {| permissions := 0; contract := 0 |})
           (allowed := false);
      [by vm_compute|reflexivity..].
  - apply (Hencode (fields None (Some "room1") None None) eq_refl eq_refl)
      with (ct := 1) (key := emitter_key) (allowed := true);
      [by vm_compute|reflexivity..].
  - apply (Hserved (fields None (Some "room1") None None) eq_refl eq_refl)
      with (ct := 1) (key := emitter_key) (allowed := true);
      [by vm_compute|reflexivity..].
Defined.

Lemma channel_normalization_witness :
  ensure_trailing_slash "room1" = "room1/"
  ∧ ensure_trailing_slash "room1/" = "room1/"
  ∧ OnPresence broker 1000 conn (payload "K1" "a//b" [])
    = (RespError errors.ErrBadRequest, false, [])
  ∧ OnHTTPPresence broker 1000 http.fresh (post (body "a//b" []))
    = ({| http.status := Some 400; http.body := "" |}, [BodyClose]).
Proof.
  destruct (channel_normalization broker 1000 conn
              (payload "K1" "a//b" []) (post (body "a//b" []))
              (fields (Some "K1") (Some "a//b") None None) "room1")
    as (Happ & _ & _ & _ & Hin & _).
  destruct (channel_normalization broker 1000 conn
              (payload "K1" "a//b" []) (post (body "a//b" []))
              (fields None (Some "a//b") None None) "room1/")
    as (_ & Hkeep & _ & _ & _ & Hhttp).
  split_and!.
  - apply Happ. reflexivity.
  - apply Hkeep. reflexivity.
  - apply Hin; reflexivity.
  - apply Hhttp; reflexivity.
Defined.

Lemma http_no_subscription_witness :
  List.filter is_registration
    (OnHTTPPresence broker 1000 http.fresh
       (post (body "room1" [json_member "changes" "true"]))).2 = []
  ∧ OnHTTPPresence broker 1000 http.fresh
      (post (body "room1" [json_member "status" "false";
                           json_member "changes" "true"]))
    = ({| http.status := Some 200;
          http.body :=
            encode_response {| Response.Time := 1000;
                               Response.Event := "status";
                               Response.Channel := "room1/";
                               Response.Who := [alice; bob; carol] |} |},
       [GetAllPresence [1; hash 0 "room1"]; BodyClose])
  ∧ ∃ f, Decode (body "room1" [json_member "status" "false"]) = Some f
      ∧ (OnHTTPPresence broker 1000 http.fresh
           (post (body "room1" [json_member "status" "false"]))).2
        = [GetAllPresence [1; hash 0 "room1"]; BodyClose].
Proof.
  split_and!.
  - apply (http_no_subscription broker 1000
             (post (body "room1" [json_member "changes" "true"]))).
  - pose proof (http_no_subscription broker 1000
                  (post (body "room1" [json_member "status" "false";
                                       json_member "changes" "true"])))
      as (_ & Hanswer & _).
    destruct (Hanswer (fields None (Some "room1") (Some false)
                              (Some (Some true)))
                1 emitter_key) as (Hlog & Hok & _);
      [reflexivity|reflexivity|by vm_compute|reflexivity|].
    apply injective_projections; [|exact Hlog].
    apply Hok. reflexivity.
  - destruct (http_no_subscription broker 1000
                (post (body "room1" [json_member "status" "false"])))
      as (_ & _ & Hserved).
    destruct (Hserved eq_refl) as (f & ct & key & Hf & Ha & Hlog & _).
    exists f. split; [exact Hf|].
    injection Hf as <-. injection Ha as <- <-. exact Hlog.
Defined.

Lemma Notify_publishes_witness :
  let ev (kind : string) :=
    {| Notification_Event := kind;
       Notification_Ssid := [7; hash 0 "room1"];
       Notification_Channel := "room1/";
       Notification_ID := "A";
       Notification_Username := "alice" |} in
  let filter (sub : Conn.t) := bool_decide (Conn.LocalID sub = 42) in
  Notify broker (ev "") filter = ((), [])
  ∧ Notify broker (ev "subscribe") filter
    = ((), [Publish
              {| Message_Ssid := [7; hash 0 "room1"];
                 Message_Channel := "emitter/presence/";
                 Message_Payload :=
                   json_object
                     [json_member "event" (json_string "subscribe");
                      json_member "channel" (json_string "room1/");
                      json_member "id" (json_string "A")] |} filter]).
Proof.
  intros ev filter. split.
  - apply (Notify_publishes broker (ev "") filter). reflexivity.
  - apply (Notify_publishes broker (ev "subscribe") filter). reflexivity.
Defined.

(** ** Runs of the further properties *)

Lemma OnPresence_response_frame_witness :
  (OnPresence broker 1000 conn
     (payload "K1" "room1" [json_member "changes" "true"])).1
  = (OnPresence broker 1000
       {| Conn.LocalID := 43; Conn.Username := "erin" |}
       (payload "K1" "room1" [])).1.
Proof.
  apply (OnPresence_response_frame broker 1000 _ _ _ _
           (fields (Some "K1") (Some "room1") None (Some (Some true)))
           (fields (Some "K1") (Some "room1") None None));
    reflexivity.
Defined.

Lemma trailing_slash_equivalent_witness :
  OnPresence broker 1000 conn (payload "K1" "room1/" [])
    = OnPresence broker 1000 conn (payload "K1" "room1" [])
  ∧ OnHTTPPresence broker 1000 http.fresh (post (body "room1/" []))
    = OnHTTPPresence broker 1000 http.fresh (post (body "room1" [])).
Proof.
  destruct (trailing_slash_equivalent broker 1000 conn http.fresh
              (payload "K1" "room1" []) (payload "K1" "room1/" [])
              (post "") (post "")
              (fields (Some "K1") (Some "room1") None None)
              (fields (Some "K1") (Some "room1/") None None)
              eq_refl eq_refl eq_refl eq_refl) as [Hin _].
  destruct (trailing_slash_equivalent broker 1000 conn http.fresh
              "" "" (post (body "room1" [])) (post (body "room1/" []))
              (fields None (Some "room1") None None)
              (fields None (Some "room1/") None None)
              eq_refl eq_refl eq_refl eq_refl) as [_ Hhttp].
  split; [apply Hin|apply Hhttp]; reflexivity.
Defined.

Lemma OnHTTPPresence_reads_only_channel_witness :
  OnHTTPPresence broker 1000 http.fresh (post (body "room1" []))
  = OnHTTPPresence broker 1000 http.fresh
      (post (payload "K1" "room1" [json_member "status" "false";
                                   json_member "changes" "true"])).
Proof.
  apply (OnHTTPPresence_reads_only_channel broker 1000 http.fresh _ _
           (fields None (Some "room1") None None)
           (fields (Some "K1") (Some "room1") (Some false)
                   (Some (Some true))));
    reflexivity.
Defined.

Lemma OnHTTPPresence_body_close_witness :
  (OnHTTPPresence broker 1000 http.fresh (post "garbage")).2 = []
  ∧ (OnHTTPPresence broker 1000 http.fresh
       {| http.Method := "GET"; http.Body := body "room1" [] |}).2 = []
  ∧ ∃ calls,
      (OnHTTPPresence broker 1000 http.fresh (post (body "a//b" []))).2
        = calls ++ [BodyClose].
Proof.
  split_and!.
  - apply (OnHTTPPresence_body_close broker 1000 http.fresh (post "garbage")).
    right. reflexivity.
  - apply (OnHTTPPresence_body_close broker 1000 http.fresh
             {| http.Method := "GET"; http.Body := body "room1" [] |}).
    left. by vm_compute.
  - destruct (OnHTTPPresence_body_close broker 1000 http.fresh
                (post (body "a//b" []))) as [Hclose _].
    destruct (Hclose eq_refl (mk_is_Some _ _ eq_refl)) as (calls & Hlog & _).
    by exists calls.
Defined.

Lemma http_agrees_with_protocol_witness :
  let s := service [("emitter", presence_only)] [alice; bob] [] in
  let resp := {| Response.Time := 1000;
                 Response.Event := "status";
                 Response.Channel := "room1/";
                 Response.Who := [alice; bob] |} in
  (OnPresence s 1000 conn (payload "emitter" "room1" [])).1.1
    = RespPresence resp
  ∧ (OnHTTPPresence s 1000 http.fresh (post (body "room1" []))).1
    = {| http.status := Some 200; http.body := encode_response resp |}.
Proof.
  intros s resp. split; [reflexivity|].
  exact (http_agrees_with_protocol s 1000 conn
           (payload "emitter" "room1" []) (post (body "room1" []))
           (fields (Some "emitter") (Some "room1") None None)
           (fields None (Some "room1") None None) resp
           eq_refl eq_refl eq_refl eq_refl eq_refl eq_refl).
Defined.

Lemma entry_points_differ_on_extend_witness :
  OnPresence broker 1000 conn (payload "emitter" "room1" [])
    = (RespError errors.ErrUnauthorizedExt, false, [])
  ∧ (OnHTTPPresence broker 1000 http.fresh (post (body "room1" []))).2
    = [GetAllPresence [1; hash 0 "room1"]; BodyClose].
Proof.
  pose proof (entry_points_differ_on_extend broker 1000 conn
                (payload "emitter" "room1" []) (post (body "room1" []))
                (fields (Some "emitter") (Some "room1") None None)
                (fields None (Some "room1") None None) 1 emitter_key) as Hd.
  destruct Hd as (Hin & Hlog & _);
    [reflexivity..|by vm_compute|reflexivity|reflexivity|].
  by split.
Defined.

Lemma authorizer_asked_for_presence_only_witness :
  let a' := {| Authorize := authorize [("K1", presence_only)] |} in
  let s' := {| auth := a';
               local_presence := local_presence broker;
               survey := survey broker |} in
  OnPresence s' 1000 conn (payload "K1" "room1" [])
  = OnPresence broker 1000 conn (payload "K1" "room1" []).
Proof.
  intros a' s'.
  apply (authorizer_asked_for_presence_only broker a' 1000 conn http.fresh
           (payload "K1" "room1" []) (post "")).
  intros f [= <-]. reflexivity.
Defined.

Lemma unsubscribe_matches_subscribe_witness :
  ∃ ev,
    List.filter is_registration
      (OnPresence broker 1000 conn
         (payload "K1" "room1" [json_member "changes" "true"])).2
      = [Subscribe conn ev]
    ∧ List.filter is_registration
        (OnPresence broker 2000 conn
           (payload "K1" "room1/" [json_member "status" "false";
                                   json_member "changes" "false"])).2
      = [Unsubscribe conn ev].
Proof.
  apply (unsubscribe_matches_subscribe broker 1000 2000 conn _ _
           (fields (Some "K1") (Some "room1") None (Some (Some true)))
           (fields (Some "K1") (Some "room1/") (Some false)
                   (Some (Some false)))
           presence_only);
    [|reflexivity..].
  apply (authorized_K1 [json_member "changes" "true"] None
           (Some (Some true)) eq_refl).
Defined.
